(** * tuba/log: JSON logging with level routing and trace-id scoping

    A shallow embedding of [src/tuba/log/log.py] together with the parts of
    the Python runtime it drives ([str], [%], [json.dumps], [contextvars],
    the dispatch of [logging.Logger] and [logging.Handler]), followed by the
    properties of the specification stated over that embedding.

    Layout: definitions first (strings, JSON, [%]-interpolation, the process
    state and its monad, the logging library, then [log.py] itself function
    by function), theorems afterwards. *)

From Stdlib Require Import ZArith NArith List String Ascii Bool Lia.
From Stdlib Require Import DecimalString DecimalPos DecimalZ.
Import ListNotations.

(* ================================================================== *)
(** ** Python strings *)
(* ================================================================== *)

(** A Python [str] is a sequence of Unicode code points. *)
Definition pychar := N.
Definition pystr := list pychar.

(** String literals of the source, written as Rocq strings. *)
Definition lit (s : string) : pystr := map N_of_ascii (list_ascii_of_string s).

(** [str(n)] for a Python [int]: decimal digits, with a leading minus sign
    for a negative number. *)
Definition str_of_int (z : Z) : pystr :=
  lit (NilZero.string_of_int (Z.to_int z)).

(** [str.lower()], on the ASCII letters.  The source applies it to level
    names only, and those are ASCII. *)
Definition lower_char (c : pychar) : pychar :=
  if ((65 <=? c) && (c <=? 90))%N then (c + 32)%N else c.

Definition str_lower (s : pystr) : pystr := map lower_char s.

(** [sep.join(parts)]. *)
Fixpoint str_join (sep : pystr) (parts : list pystr) : pystr :=
  match parts with
  | [] => []
  | [p] => p
  | p :: ps => p ++ sep ++ str_join sep ps
  end.

Fixpoint pystr_eqb (a b : pystr) : bool :=
  match a, b with
  | [], [] => true
  | x :: a', y :: b' => (x =? y)%N && pystr_eqb a' b'
  | _, _ => false
  end.

Definition is_digit (c : pychar) : bool := ((48 <=? c) && (c <=? 57))%N.

(** The values the logging calls are given as arguments. *)
Inductive pyval :=
| PyStr (s : pystr)
| PyInt (z : Z).

(** [str(arg)]. *)
Definition py_str (v : pyval) : pystr :=
  match v with
  | PyStr s => s
  | PyInt z => str_of_int z
  end.

(* ================================================================== *)
(** ** Dictionaries with string keys and values, and [json.dumps] *)
(* ================================================================== *)

(** A [dict] keeps its keys in insertion order; [log_entry] maps strings to
    strings. *)
Definition dict := list (pystr * pystr).

(** [d[k] = v]: overwrite in place when the key exists, append otherwise. *)
Fixpoint dict_set (d : dict) (k v : pystr) : dict :=
  match d with
  | [] => [(k, v)]
  | (k', v') :: d' =>
      if pystr_eqb k' k then (k, v) :: d' else (k', v') :: dict_set d' k v
  end.

Fixpoint dict_get (d : dict) (k : pystr) : option pystr :=
  match d with
  | [] => None
  | (k', v') :: d' => if pystr_eqb k' k then Some v' else dict_get d' k
  end.

Definition dict_keys (d : dict) : list pystr := map fst d.

Definition hex_digit (n : N) : pychar :=
  if (n <? 10)%N then (48 + n)%N else (87 + n)%N.

(** [json.encoder.encode_basestring], the string encoder chosen by
    [ensure_ascii=False]: the quote, the backslash and the control
    characters below U+0020 are escaped, every other code point is copied. *)
Definition escape_char (c : pychar) : pystr :=
  if (c =? 34)%N then [92; 34]%N
  else if (c =? 92)%N then [92; 92]%N
  else if (c =? 10)%N then [92; 110]%N
  else if (c =? 13)%N then [92; 114]%N
  else if (c =? 9)%N then [92; 116]%N
  else if (c =? 8)%N then [92; 98]%N
  else if (c =? 12)%N then [92; 102]%N
  else if (c <? 32)%N
       then [92; 117; 48; 48; hex_digit (c / 16); hex_digit (c mod 16)]%N
  else [c].

Definition encode_basestring (s : pystr) : pystr :=
  (34%N :: flat_map escape_char s) ++ [34%N].

Definition encode_item (kv : pystr * pystr) : pystr :=
  encode_basestring (fst kv) ++ lit ":" ++ encode_basestring (snd kv).

(** [json.dumps(d, ensure_ascii=False, separators=(",", ":"))] for a
    dictionary of strings. *)
Definition json_dumps (d : dict) : pystr :=
  lit "{" ++ str_join (lit ",") (map encode_item d) ++ lit "}".

(* ------------------------------------------------------------------ *)
(** *** A decoder for JSON objects of strings

    The reader side of the wire format: a strict JSON parser for the
    objects whose members are all strings, without insignificant white
    space.  Whatever it accepts is a JSON text (RFC 8259). *)

Definition hex_value (c : pychar) : option N :=
  if ((48 <=? c) && (c <=? 57))%N then Some (c - 48)%N
  else if ((97 <=? c) && (c <=? 102))%N then Some (c - 87)%N
  else if ((65 <=? c) && (c <=? 70))%N then Some (c - 55)%N
  else None.

Definition hex4 (a b c d : pychar) : option pychar :=
  match hex_value a, hex_value b, hex_value c, hex_value d with
  | Some x, Some y, Some z, Some t => Some (((x * 16 + y) * 16 + z) * 16 + t)%N
  | _, _, _, _ => None
  end.

Definition unescape (e : pychar) : option pychar :=
  if (e =? 34)%N then Some 34%N
  else if (e =? 92)%N then Some 92%N
  else if (e =? 47)%N then Some 47%N
  else if (e =? 110)%N then Some 10%N
  else if (e =? 114)%N then Some 13%N
  else if (e =? 116)%N then Some 9%N
  else if (e =? 98)%N then Some 8%N
  else if (e =? 102)%N then Some 12%N
  else None.

Definition push (c : pychar) (r : option (pystr * pystr)) :
  option (pystr * pystr) :=
  match r with
  | Some (s, rest) => Some (c :: s, rest)
  | None => None
  end.

(** The characters of a string up to its closing quote, and what follows. *)
Fixpoint decode_string_body (s : pystr) : option (pystr * pystr) :=
  match s with
  | [] => None
  | c :: rest =>
      if (c =? 34)%N then Some ([], rest)
      else if (c =? 92)%N then
        match rest with
        | [] => None
        | e :: rest1 =>
            if (e =? 117)%N then
              match rest1 with
              | a :: b :: x :: y :: rest2 =>
                  match hex4 a b x y with
                  | Some u => push u (decode_string_body rest2)
                  | None => None
                  end
              | _ => None
              end
            else
              match unescape e with
              | Some u => push u (decode_string_body rest1)
              | None => None
              end
        end
      else if (c <? 32)%N then None
      else push c (decode_string_body rest)
  end.

Definition decode_string (s : pystr) : option (pystr * pystr) :=
  match s with
  | c :: rest => if (c =? 34)%N then decode_string_body rest else None
  | [] => None
  end.

(** Members [string ":" string], separated by commas, up to the closing
    brace. *)
Fixpoint decode_members (fuel : nat) (s : pystr) : option (dict * pystr) :=
  match fuel with
  | O => None
  | S fuel' =>
      match decode_string s with
      | Some (k, c :: s1) =>
          if (c =? 58)%N then
            match decode_string s1 with
            | Some (v, d :: s2) =>
                if (d =? 125)%N then Some ([(k, v)], s2)
                else if (d =? 44)%N then
                  match decode_members fuel' s2 with
                  | Some (m, s3) => Some ((k, v) :: m, s3)
                  | None => None
                  end
                else None
            | _ => None
            end
          else None
      | _ => None
      end
  end.

(** A whole line: one object and nothing after it. *)
Definition json_decode (s : pystr) : option dict :=
  match s with
  | c :: rest =>
      if (c =? 123)%N then
        match rest with
        | d :: rest1 =>
            if (d =? 125)%N then
              match rest1 with [] => Some [] | _ => None end
            else
              match decode_members (List.length rest) rest with
              | Some (m, []) => Some m
              | _ => None
              end
        | [] => None
        end
      else None
  | [] => None
  end.

(* ================================================================== *)
(** ** Exceptions and results *)
(* ================================================================== *)

(** The exceptions that occur.  [Unmodelled] is not a Python exception: it
    marks a [%] directive that Python accepts and this development does not
    describe (see [percent_format]). *)
Inductive exn :=
| TypeError
| ValueError
| RuntimeError
| SystemExit (code : Z)
| Unmodelled.

Inductive result (A : Type) :=
| Ok (a : A)
| Raise (e : exn).

Arguments Ok {A} a.
Arguments Raise {A} e.

(* ================================================================== *)
(** ** [template % args] *)
(* ================================================================== *)

Definition prepend (p : pystr) (r : result pystr) : result pystr :=
  match r with
  | Ok s => Ok (p ++ s)
  | Raise e => Raise e
  end.

(** The characters that may follow [%] in a directive Python understands
    and that are left out here: mapping key, flags, width, precision,
    length modifier, and the conversion types other than [s d i u]. *)
Definition beyond_fragment (k : pychar) : bool :=
  existsb (N.eqb k) (lit "(#0- +*.123456789hlLraoxXeEfFgGc").

(** [fmt % args] for a tuple [args], left to right as
    [unicode_format] does it: [%%] is a percent sign and takes no argument;
    any other directive first takes the next argument ([TypeError]: not
    enough arguments for format string), then converts it ([%s] by [str],
    [%d], [%i] and [%u] need a number, [TypeError] otherwise; an unknown
    conversion character is a [ValueError]); a template ending in [%] is a
    [ValueError] (incomplete format); arguments left over at the end are a
    [TypeError] (not all arguments converted during string formatting). *)
Fixpoint percent_format (fmt : pystr) (args : list pyval) : result pystr :=
  match fmt with
  | [] =>
      match args with
      | [] => Ok []
      | _ :: _ => Raise TypeError
      end
  | c :: rest =>
      if (c =? 37)%N then
        match rest with
        | [] => Raise ValueError
        | k :: rest1 =>
            if (k =? 37)%N then prepend [37%N] (percent_format rest1 args)
            else if beyond_fragment k then Raise Unmodelled
            else
              match args with
              | [] => Raise TypeError
              | a :: args1 =>
                  if (k =? 115)%N then
                    prepend (py_str a) (percent_format rest1 args1)
                  else if ((k =? 100) || (k =? 105) || (k =? 117))%N then
                    match a with
                    | PyInt z =>
                        prepend (str_of_int z) (percent_format rest1 args1)
                    | PyStr _ => Raise TypeError
                    end
                  else Raise ValueError
              end
        end
      else prepend [c] (percent_format rest args)
  end.

(* ================================================================== *)
(** ** The [logging] library: levels, records, handlers, loggers *)
(* ================================================================== *)

Module logging.

Definition DEBUG : Z := 10.
Definition INFO : Z := 20.
Definition WARNING : Z := 30.
Definition ERROR : Z := 40.
Definition CRITICAL : Z := 50.

(** [logging.getLevelName(level)] with the table the library starts
    with. *)
Definition getLevelName (level : Z) : pystr :=
  if (level =? CRITICAL)%Z then lit "CRITICAL"
  else if (level =? ERROR)%Z then lit "ERROR"
  else if (level =? WARNING)%Z then lit "WARNING"
  else if (level =? INFO)%Z then lit "INFO"
  else if (level =? DEBUG)%Z then lit "DEBUG"
  else if (level =? 0)%Z then lit "NOTSET"
  else lit "Level " ++ str_of_int level.

End logging.

(** What [traceback.format_exception] renders for the attached
    exception: a list of text chunks. *)
Definition ExcInfo := list pystr.

(** [logging.LogRecord].  [Logger.debug(msg)] and its siblings are always
    called with one positional argument here, so [record.args] is empty and
    [getMessage()] is [str(record.msg)]. *)
Record LogRecord := {
  levelno : Z;
  levelname : pystr;
  msg : pystr;
  exc_info : option ExcInfo
}.

Definition getMessage (record : LogRecord) : pystr := msg record.

(** [class LevelFilter(logging.Filter)] of [log.py]: the only filter class
    that is instantiated. *)
Inductive Filter :=
| LevelFilter (level : Z).

Definition LevelFilter_filter (self : Filter) (record : LogRecord) : bool :=
  match self with
  | LevelFilter level => (levelno record =? level)%Z
  end.

(** The formatter classes in use: [class JSONFormatter(logging.Formatter)]
    of [log.py]. *)
Inductive Formatter :=
| JSONFormatter.

(** Where a handler writes: [sys.stdout], or the file a
    [TimedRotatingFileHandler] was opened on (rotation renames old
    generations and is not described: a line counts for the base file). *)
Inductive Stream :=
| Stdout
| FileStream (path : pystr).

Record Handler := {
  h_stream : Stream;
  h_formatter : option Formatter;
  h_level : Z;
  h_filters : list Filter
}.

(** [logging.StreamHandler(stream)] and
    [TimedRotatingFileHandler(filename, ...)] start at level [NOTSET],
    with no formatter and no filter. *)
Definition StreamHandler (stream : Stream) : Handler :=
  {| h_stream := stream; h_formatter := None; h_level := 0; h_filters := [] |}.

Definition TimedRotatingFileHandler (filename : pystr) : Handler :=
  StreamHandler (FileStream filename).

Definition setFormatter (h : Handler) (fmt : Formatter) : Handler :=
  {| h_stream := h_stream h; h_formatter := Some fmt;
     h_level := h_level h; h_filters := h_filters h |}.

Definition setLevel (h : Handler) (level : Z) : Handler :=
  {| h_stream := h_stream h; h_formatter := h_formatter h;
     h_level := level; h_filters := h_filters h |}.

Definition addFilter (h : Handler) (f : Filter) : Handler :=
  {| h_stream := h_stream h; h_formatter := h_formatter h;
     h_level := h_level h; h_filters := h_filters h ++ [f] |}.

Record Logger := {
  l_level : Z;
  l_handlers : list Handler;
  l_propagate : bool
}.

(** The object [logging.getLogger("tubalog")] answers: there is one per
    process, and every reference to it is this name. *)
Inductive LoggerRef :=
| TubaLog.

(** [os.path.join(a, b)] of [posixpath]. *)
Definition starts_with_sep (b : pystr) : bool :=
  match b with
  | c :: _ => (c =? 47)%N
  | [] => false
  end.

Definition ends_with_sep (a : pystr) : bool := starts_with_sep (rev a).

Definition os_path_join (a b : pystr) : pystr :=
  if starts_with_sep b then b
  else if match a with [] => true | _ => ends_with_sep a end then a ++ b
  else a ++ lit "/" ++ b.

(* ================================================================== *)
(** ** The process state *)
(* ================================================================== *)

(** [contextvars.Token]: the value the variable had before [set]
    ([None] for [Token.MISSING]) and the identity of the token. *)
Record Token := {
  tok_id : nat;
  tok_old : option pystr
}.

Record World := {
  (** the logger object registered under the name ["tubalog"] *)
  tubalog : Logger;
  (** the module global [_logger] *)
  _logger : option LoggerRef;
  (** [_trace_id_var] in the current context; [None] when it holds no
      value, in which case [get()] answers the default, [None] *)
  _trace_id_var : option pystr;
  (** one flag per token handed out: has it been used by [reset]? *)
  tokens : list bool;
  (** [int(time.time())]; a call is short, the clock is read and does not
      move while it runs *)
  clock : Z;
  (** every write to a stream, oldest first *)
  written : list (Stream * pystr)
}.

Definition with_tubalog (w : World) (l : Logger) : World :=
  {| tubalog := l; _logger := _logger w; _trace_id_var := _trace_id_var w;
     tokens := tokens w; clock := clock w; written := written w |}.

Definition with_logger (w : World) (r : option LoggerRef) : World :=
  {| tubalog := tubalog w; _logger := r; _trace_id_var := _trace_id_var w;
     tokens := tokens w; clock := clock w; written := written w |}.

Definition with_trace (w : World) (v : option pystr) (t : list bool) : World :=
  {| tubalog := tubalog w; _logger := _logger w; _trace_id_var := v;
     tokens := t; clock := clock w; written := written w |}.

Definition with_written (w : World) (o : list (Stream * pystr)) : World :=
  {| tubalog := tubalog w; _logger := _logger w;
     _trace_id_var := _trace_id_var w;
     tokens := tokens w; clock := clock w; written := o |}.

(** Computations: a result or an exception, and the state afterwards. *)
Definition M (A : Type) := World -> result A * World.

Definition ret {A} (a : A) : M A := fun w => (Ok a, w).

Definition raise {A} (e : exn) : M A := fun w => (Raise e, w).

Definition bind {A B} (m : M A) (k : A -> M B) : M B :=
  fun w =>
    match m w with
    | (Ok a, w1) => k a w1
    | (Raise e, w1) => (Raise e, w1)
    end.

Notation "x <- m ;; k" := (bind m (fun x => k))
  (at level 61, m at next level, right associativity).
Notation "m ;; k" := (bind m (fun _ => k))
  (at level 61, right associativity).

Definition lift {A} (r : result A) : M A := fun w => (r, w).

(** [try: body finally: fin]: [fin] runs on every exit of [body]; what
    [body] returned or raised goes on, unless [fin] raises itself. *)
Definition try_finally {A} (body : M A) (fin : M unit) : M A :=
  fun w =>
    let (r, w1) := body w in
    match fin w1 with
    | (Ok _, w2) => (r, w2)
    | (Raise e, w2) => (Raise e, w2)
    end.

(** [SystemExit] derives from [BaseException], the others from
    [Exception]. *)
Definition is_Exception (e : exn) : bool :=
  match e with
  | SystemExit _ => false
  | _ => true
  end.

(** [try: body except Exception: handler]. *)
Definition try_except (body : M unit) (handler : M unit) : M unit :=
  fun w =>
    match body w with
    | (Ok a, w1) => (Ok a, w1)
    | (Raise e, w1) => if is_Exception e then handler w1 else (Raise e, w1)
    end.

Definition run {A} (m : M A) (w : World) : World := snd (m w).
Definition outcome {A} (m : M A) (w : World) : result A := fst (m w).

(* ------------------------------------------------------------------ *)
(** *** [contextvars.ContextVar] *)

Definition ContextVar_get : M (option pystr) :=
  fun w => (Ok (_trace_id_var w), w).

Definition ContextVar_set (value : pystr) : M Token :=
  fun w =>
    (Ok {| tok_id := List.length (tokens w); tok_old := _trace_id_var w |},
     with_trace w (Some value) (tokens w ++ [false])).

Fixpoint mark_used (n : nat) (l : list bool) : list bool :=
  match l, n with
  | [], _ => []
  | _ :: l', O => true :: l'
  | b :: l', S n' => b :: mark_used n' l'
  end.

(** [var.reset(token)]: a token may be used once ([RuntimeError]
    afterwards) and must come from this variable ([ValueError]). *)
Definition ContextVar_reset (token : Token) : M unit :=
  fun w =>
    match nth_error (tokens w) (tok_id token) with
    | Some false =>
        (Ok tt, with_trace w (tok_old token) (mark_used (tok_id token) (tokens w)))
    | Some true => (Raise RuntimeError, w)
    | None => (Raise ValueError, w)
    end.

Definition time_time : M Z := fun w => (Ok (clock w), w).

Definition stream_write (s : Stream) (text : pystr) : M unit :=
  fun w => (Ok tt, with_written w (written w ++ [(s, text)])).

(* ================================================================== *)
(** ** [log.py]: the formatter *)
(* ================================================================== *)

(** The dictionary [JSONFormatter.format] builds, from the time read, the
    ambient trace id read and the record. *)
Definition log_entry (now : Z) (trace_id : option pystr) (record : LogRecord)
  : dict :=
  let log_entry :=
    [ (lit "level", str_lower (levelname record));
      (lit "event_time", str_of_int now);
      (lit "msg", getMessage record) ] in
  let log_entry :=
    match trace_id with
    | Some t => dict_set log_entry (lit "trace_id") t
    | None => log_entry
    end in
  match (logging.WARNING <=? levelno record)%Z, exc_info record with
  | true, Some e => dict_set log_entry (lit "stacktrace") (List.concat e)
  | _, _ => log_entry
  end.

(** [JSONFormatter.format(record)]. *)
Definition JSONFormatter_format (record : LogRecord) : M pystr :=
  now <- time_time ;;
  trace_id <- ContextVar_get ;;
  ret (json_dumps (log_entry now trace_id record)).

(* ================================================================== *)
(** ** The [logging] library: dispatch of a record *)
(* ================================================================== *)

(** [Handler.format]: the handler's formatter, or the library's default
    one, which renders the message alone. *)
Definition Handler_format (h : Handler) (record : LogRecord) : M pystr :=
  match h_formatter h with
  | Some JSONFormatter => JSONFormatter_format record
  | None => ret (getMessage record)
  end.

(** [Handler.handleError]: a diagnostic on [sys.stderr], nothing raised. *)
Definition handleError : M unit := ret tt.

(** [StreamHandler.terminator], the line feed. *)
Definition terminator : pystr := [10%N].

(** [StreamHandler.emit]: format, write the line and its terminator; an
    [Exception] on the way ends in [handleError]. *)
Definition StreamHandler_emit (h : Handler) (record : LogRecord) : M unit :=
  try_except
    (line <- Handler_format h record ;;
     stream_write (h_stream h) (line ++ terminator))
    handleError.

(** [Filterer.filter]: every filter must let the record through. *)
Definition Filterer_filter (fs : list Filter) (record : LogRecord) : bool :=
  forallb (fun f => LevelFilter_filter f record) fs.

(** [Handler.handle]. *)
Definition Handler_handle (h : Handler) (record : LogRecord) : M unit :=
  if Filterer_filter (h_filters h) record
  then StreamHandler_emit h record
  else ret tt.

(** [Logger.callHandlers], for a logger that does not propagate: the loop
    over its own handlers. *)
Fixpoint callHandlers (hs : list Handler) (record : LogRecord) : M unit :=
  match hs with
  | [] => ret tt
  | hdlr :: hs' =>
      (if (h_level hdlr <=? levelno record)%Z
       then Handler_handle hdlr record
       else ret tt) ;;
      callHandlers hs' record
  end.

(** [Logger.isEnabledFor]: the logger's own level is set, so it is its
    effective level. *)
Definition isEnabledFor (l : Logger) (level : Z) : bool :=
  (l_level l <=? level)%Z.

(** [Logger.makeRecord], called by [Logger._log] without [exc_info]. *)
Definition makeRecord (level : Z) (m : pystr) (e : option ExcInfo)
  : LogRecord :=
  {| levelno := level; levelname := logging.getLevelName level;
     msg := m; exc_info := e |}.

Definition deref (r : LoggerRef) : M Logger :=
  fun w => match r with TubaLog => (Ok (tubalog w), w) end.

(** [Logger._log] followed by [Logger.handle]. *)
Definition Logger_log (self : LoggerRef) (level : Z) (m : pystr) : M unit :=
  l <- deref self ;;
  if isEnabledFor l level
  then callHandlers (l_handlers l) (makeRecord level m None)
  else ret tt.

Definition Logger_debug (self : LoggerRef) (m : pystr) : M unit :=
  Logger_log self logging.DEBUG m.

Definition Logger_info (self : LoggerRef) (m : pystr) : M unit :=
  Logger_log self logging.INFO m.

Definition Logger_warning (self : LoggerRef) (m : pystr) : M unit :=
  Logger_log self logging.WARNING m.

Definition Logger_error (self : LoggerRef) (m : pystr) : M unit :=
  Logger_log self logging.ERROR m.

Definition Logger_critical (self : LoggerRef) (m : pystr) : M unit :=
  Logger_log self logging.CRITICAL m.

Definition update_logger (self : LoggerRef) (f : Logger -> Logger) : M unit :=
  fun w => match self with TubaLog => (Ok tt, with_tubalog w (f (tubalog w))) end.

Definition handlers_clear (self : LoggerRef) : M unit :=
  update_logger self (fun l =>
    {| l_level := l_level l; l_handlers := []; l_propagate := l_propagate l |}).

Definition set_propagate (self : LoggerRef) (b : bool) : M unit :=
  update_logger self (fun l =>
    {| l_level := l_level l; l_handlers := l_handlers l; l_propagate := b |}).

Definition Logger_setLevel (self : LoggerRef) (level : Z) : M unit :=
  update_logger self (fun l =>
    {| l_level := level; l_handlers := l_handlers l;
       l_propagate := l_propagate l |}).

(** [Logger.addHandler] with a handler object made just before. *)
Definition Logger_addHandler (self : LoggerRef) (h : Handler) : M unit :=
  update_logger self (fun l =>
    {| l_level := l_level l; l_handlers := l_handlers l ++ [h];
       l_propagate := l_propagate l |}).

(* ================================================================== *)
(** ** [log.py]: configuration and the logger *)
(* ================================================================== *)

Module Config.
Record t := mk {
  log_path : pystr;
  app_name : pystr;
  debug : bool;
  multi_file : bool
}.
End Config.

(** A non-empty string is true. *)
Definition truthy (s : pystr) : bool :=
  match s with
  | [] => false
  | _ :: _ => true
  end.

Definition _add_level_file_handler (logger : LoggerRef) (config : Config.t)
  (suffix : pystr) (level : Z) (formatter : Formatter) : M unit :=
  let log_file :=
    os_path_join (Config.log_path config) (Config.app_name config ++ suffix) in
  let file_handler := TimedRotatingFileHandler log_file in
  let file_handler := setFormatter file_handler formatter in
  let file_handler := setLevel file_handler level in
  let file_handler := addFilter file_handler (LevelFilter level) in
  Logger_addHandler logger file_handler.

Definition _create_logger (config : Config.t) : M LoggerRef :=
  let logger := TubaLog in
  handlers_clear logger ;;
  set_propagate logger false ;;
  (if Config.debug config
   then Logger_setLevel logger logging.DEBUG
   else Logger_setLevel logger logging.INFO) ;;
  let formatter := JSONFormatter in
  let console_handler := StreamHandler Stdout in
  let console_handler := setFormatter console_handler formatter in
  let console_handler :=
    if Config.debug config
    then setLevel console_handler logging.DEBUG
    else setLevel console_handler logging.INFO in
  Logger_addHandler logger console_handler ;;
  (if truthy (Config.log_path config) then
     if Config.multi_file config then
       _add_level_file_handler logger config (lit "_info.log")
         logging.INFO formatter ;;
       _add_level_file_handler logger config (lit "_warn.log")
         logging.WARNING formatter ;;
       _add_level_file_handler logger config (lit "_error.log")
         logging.ERROR formatter ;;
       _add_level_file_handler logger config (lit "_fatal.log")
         logging.CRITICAL formatter ;;
       (if Config.debug config
        then _add_level_file_handler logger config (lit "_debug.log")
               logging.DEBUG formatter
        else ret tt)
     else
       let log_file :=
         os_path_join (Config.log_path config)
           (Config.app_name config ++ lit ".log") in
       let file_handler := TimedRotatingFileHandler log_file in
       let file_handler := setFormatter file_handler formatter in
       let file_handler :=
         if Config.debug config
         then setLevel file_handler logging.DEBUG
         else setLevel file_handler logging.INFO in
       Logger_addHandler logger file_handler
   else ret tt) ;;
  ret logger.

Definition set_global_logger (r : LoggerRef) : M unit :=
  fun w => (Ok tt, with_logger w (Some r)).

(** [Config(debug=True)]: the other fields take their defaults. *)
Definition default_config : Config.t :=
  Config.mk [] [] true false.

Definition _get_logger : M LoggerRef :=
  fun w =>
    match _logger w with
    | None => (r <- _create_logger default_config ;;
               set_global_logger r ;;
               ret r) w
    | Some r => (Ok r, w)
    end.

Definition init (config : Config.t) : M unit :=
  r <- _create_logger config ;;
  set_global_logger r.

(* ------------------------------------------------------------------ *)
(** *** Context management functions *)

Definition with_trace_id (trace_id : pystr) : M Token :=
  ContextVar_set trace_id.

Definition from_context : M (option pystr * bool) :=
  trace_id <- ContextVar_get ;;
  ret (trace_id, match trace_id with Some _ => true | None => false end).

Definition reset_trace_id (token : Token) : M unit :=
  ContextVar_reset token.

(* ------------------------------------------------------------------ *)
(** *** Basic logging functions

    In a call [_get_logger().info(e)] the logger is looked up first, then
    the argument [e] is evaluated, then the method runs. *)

Definition joined (args : list pyval) : pystr :=
  str_join (lit " ") (map py_str args).

(** [msg % args if args else msg]. *)
Definition interpolated (m : pystr) (args : list pyval) : M pystr :=
  match args with
  | [] => ret m
  | _ :: _ => lift (percent_format m args)
  end.

Definition sys_exit (code : Z) : M unit := raise (SystemExit code).

Definition debug (args : list pyval) : M unit :=
  l <- _get_logger ;;
  Logger_debug l (joined args).

Definition debugf (m : pystr) (args : list pyval) : M unit :=
  l <- _get_logger ;;
  s <- interpolated m args ;;
  Logger_debug l s.

Definition info (args : list pyval) : M unit :=
  l <- _get_logger ;;
  Logger_info l (joined args).

Definition infof (m : pystr) (args : list pyval) : M unit :=
  l <- _get_logger ;;
  s <- interpolated m args ;;
  Logger_info l s.

Definition warn (args : list pyval) : M unit :=
  l <- _get_logger ;;
  Logger_warning l (joined args).

Definition warnf (m : pystr) (args : list pyval) : M unit :=
  l <- _get_logger ;;
  s <- interpolated m args ;;
  Logger_warning l s.

Definition error (args : list pyval) : M unit :=
  l <- _get_logger ;;
  Logger_error l (joined args).

Definition errorf (m : pystr) (args : list pyval) : M unit :=
  l <- _get_logger ;;
  s <- interpolated m args ;;
  Logger_error l s.

Definition fatal (args : list pyval) : M unit :=
  l <- _get_logger ;;
  Logger_critical l (joined args) ;;
  sys_exit 1.

Definition fatalf (m : pystr) (args : list pyval) : M unit :=
  l <- _get_logger ;;
  s <- interpolated m args ;;
  Logger_critical l s ;;
  sys_exit 1.

(* ------------------------------------------------------------------ *)
(** *** Context-aware logging functions *)

Definition ctx_debug (trace_id : pystr) (args : list pyval) : M unit :=
  token <- with_trace_id trace_id ;;
  try_finally (debug args) (reset_trace_id token).

Definition ctx_debugf (trace_id m : pystr) (args : list pyval) : M unit :=
  token <- with_trace_id trace_id ;;
  try_finally (debugf m args) (reset_trace_id token).

Definition ctx_info (trace_id : pystr) (args : list pyval) : M unit :=
  token <- with_trace_id trace_id ;;
  try_finally (info args) (reset_trace_id token).

Definition ctx_infof (trace_id m : pystr) (args : list pyval) : M unit :=
  token <- with_trace_id trace_id ;;
  try_finally (infof m args) (reset_trace_id token).

Definition ctx_warn (trace_id : pystr) (args : list pyval) : M unit :=
  token <- with_trace_id trace_id ;;
  try_finally (warn args) (reset_trace_id token).

Definition ctx_warnf (trace_id m : pystr) (args : list pyval) : M unit :=
  token <- with_trace_id trace_id ;;
  try_finally (warnf m args) (reset_trace_id token).

Definition ctx_error (trace_id : pystr) (args : list pyval) : M unit :=
  token <- with_trace_id trace_id ;;
  try_finally (error args) (reset_trace_id token).

Definition ctx_errorf (trace_id m : pystr) (args : list pyval) : M unit :=
  token <- with_trace_id trace_id ;;
  try_finally (errorf m args) (reset_trace_id token).

(* ================================================================== *)
(** ** The public interface as data, and what a call leaves behind *)
(* ================================================================== *)

(** The severities of the specification, in increasing order. *)
Inductive Severity :=
| DEBUG
| INFO
| WARN
| ERROR
| FATAL.

(** The level each family of functions hands to the [logging] library. *)
Definition severity_level (s : Severity) : Z :=
  match s with
  | DEBUG => logging.DEBUG
  | INFO => logging.INFO
  | WARN => logging.WARNING
  | ERROR => logging.ERROR
  | FATAL => logging.CRITICAL
  end.

(** The lowercase severity names of the specification. *)
Definition severity_name (s : Severity) : pystr :=
  match s with
  | DEBUG => lit "debug"
  | INFO => lit "info"
  | WARN => lit "warn"
  | ERROR => lit "error"
  | FATAL => lit "fatal"
  end.

(** The severities that have [ctx_] functions: there is no [ctx_fatal]. *)
Inductive CtxSeverity :=
| CtxDebug
| CtxInfo
| CtxWarn
| CtxError.

Definition ctx_severity (s : CtxSeverity) : Severity :=
  match s with
  | CtxDebug => DEBUG
  | CtxInfo => INFO
  | CtxWarn => WARN
  | CtxError => ERROR
  end.

(** A call of one of the eighteen logging functions, with its arguments. *)
Inductive Call :=
| Plain (s : Severity) (args : list pyval)
| Formatted (s : Severity) (m : pystr) (args : list pyval)
| CtxPlain (s : CtxSeverity) (trace_id : pystr) (args : list pyval)
| CtxFormatted (s : CtxSeverity) (trace_id m : pystr) (args : list pyval).

Definition perform (c : Call) : M unit :=
  match c with
  | Plain s args =>
      match s with
      | DEBUG => debug args
      | INFO => info args
      | WARN => warn args
      | ERROR => error args
      | FATAL => fatal args
      end
  | Formatted s m args =>
      match s with
      | DEBUG => debugf m args
      | INFO => infof m args
      | WARN => warnf m args
      | ERROR => errorf m args
      | FATAL => fatalf m args
      end
  | CtxPlain s t args =>
      match s with
      | CtxDebug => ctx_debug t args
      | CtxInfo => ctx_info t args
      | CtxWarn => ctx_warn t args
      | CtxError => ctx_error t args
      end
  | CtxFormatted s t m args =>
      match s with
      | CtxDebug => ctx_debugf t m args
      | CtxInfo => ctx_infof t m args
      | CtxWarn => ctx_warnf t m args
      | CtxError => ctx_errorf t m args
      end
  end.

Definition call_severity (c : Call) : Severity :=
  match c with
  | Plain s _ | Formatted s _ _ => s
  | CtxPlain s _ _ | CtxFormatted s _ _ _ => ctx_severity s
  end.

(** The trace id a [ctx_] call installs. *)
Definition call_trace (c : Call) : option pystr :=
  match c with
  | Plain _ _ | Formatted _ _ _ => None
  | CtxPlain _ t _ | CtxFormatted _ t _ _ => Some t
  end.

(** The same call without its [ctx_] prefix. *)
Definition call_body (c : Call) : Call :=
  match c with
  | Plain _ _ | Formatted _ _ _ => c
  | CtxPlain s _ args => Plain (ctx_severity s) args
  | CtxFormatted s _ m args => Formatted (ctx_severity s) m args
  end.

(** The message text a call computes before it reaches the logger. *)
Definition call_message (c : Call) : result pystr :=
  match c with
  | Plain _ args | CtxPlain _ _ args => Ok (joined args)
  | Formatted _ m args | CtxFormatted _ _ m args =>
      match args with
      | [] => Ok m
      | _ :: _ => percent_format m args
      end
  end.

(** How a call ends, given how its message came out. *)
Definition call_outcome (c : Call) : result unit :=
  match call_message c with
  | Raise e => Raise e
  | Ok _ =>
      match call_severity c with
      | FATAL => Raise (SystemExit 1)
      | _ => Ok tt
      end
  end.

(** A handler takes a record when its level and all its filters let it. *)
Definition accepts (h : Handler) (record : LogRecord) : bool :=
  (h_level h <=? levelno record)%Z && Filterer_filter (h_filters h) record.

(** The line a handler's formatter makes of a record in a given state. *)
Definition rendered (w : World) (h : Handler) (record : LogRecord) : pystr :=
  match h_formatter h with
  | Some JSONFormatter =>
      json_dumps (log_entry (clock w) (_trace_id_var w) record)
  | None => getMessage record
  end.

(** The writes a record causes, handler after handler. *)
Definition deliveries (w : World) (record : LogRecord) (hs : list Handler)
  : list (Stream * pystr) :=
  map (fun h => (h_stream h, rendered w h record ++ terminator))
      (filter (fun h => accepts h record) hs).

(** The writes of one call of a logger method. *)
Definition emitted (w : World) (level : Z) (m : pystr)
  : list (Stream * pystr) :=
  if isEnabledFor (tubalog w) level
  then deliveries w (makeRecord level m None) (l_handlers (tubalog w))
  else [].

(** The state once the logger has been looked up: as it was when the
    global is set, initialised from the default configuration otherwise. *)
Definition ready (w : World) : World :=
  match _logger w with
  | None => run (init default_config) w
  | Some _ => w
  end.

(** The state in which a [ctx_] function runs its body. *)
Definition install (trace_id : pystr) (w : World) : World :=
  with_trace w (Some trace_id) (tokens w ++ [false]).

(** The shape shared by the [ctx_] functions. *)
Definition scoped (trace_id : pystr) (body : M unit) : M unit :=
  token <- with_trace_id trace_id ;;
  try_finally body (reset_trace_id token).

(** The exact filter of a sink, in the words of the specification: the
    level of its [LevelFilter], when it has one. *)
Definition exact_filter (h : Handler) : option Z :=
  match h_filters h with
  | [] => None
  | LevelFilter level :: _ => Some level
  end.

(** The sink predicate of the specification. *)
Definition sink_accepts (h : Handler) (level : Z) : Prop :=
  (h_level h <= level)%Z /\
  (exact_filter h = None \/ exact_filter h = Some level).

(** What a call without [ctx_] prefix does: look the logger up, compute
    the message, hand it to the logger, and leave the process when the
    severity is [FATAL]. *)
Definition plain_behaviour (c : Call) (w : World) : result unit * World :=
  match call_message c with
  | Raise e => (Raise e, ready w)
  | Ok s =>
      (call_outcome c,
       with_written (ready w)
         (written (ready w)
            ++ emitted (ready w) (severity_level (call_severity c)) s))
  end.

(** What any call does. *)
Definition behaviour (c : Call) (w : World) : result unit * World :=
  match call_trace c with
  | None => plain_behaviour c w
  | Some t =>
      (fst (plain_behaviour (call_body c) (install t w)),
       with_trace (snd (plain_behaviour (call_body c) (install t w)))
         (_trace_id_var w)
         (mark_used (List.length (tokens w)) (tokens w ++ [false])))
  end.

(** The state in which a call looks the logger up and logs. *)
Definition scene (c : Call) (w : World) : World :=
  match call_trace c with
  | Some t => ready (install t w)
  | None => ready w
  end.

(** The writes of a call. *)
Definition call_writes (c : Call) (w : World) : list (Stream * pystr) :=
  match call_message c with
  | Ok s => emitted (scene c w) (severity_level (call_severity c)) s
  | Raise _ => []
  end.

(** The global is set, and the logger object is as [init config] makes
    it (which does not depend on the state [init] starts from). *)
Definition configured_by (config : Config.t) (w : World) : Prop :=
  _logger w = Some TubaLog /\
  tubalog w = tubalog (run (init config) w).

(** The threshold [init config] gives the logger. *)
Definition threshold (config : Config.t) : Z :=
  if Config.debug config then logging.DEBUG else logging.INFO.

(** Is a stack trace rendered for this record?  The test of
    [JSONFormatter.format]: level at least [WARNING] and an exception
    attached. *)
Definition stacktrace_of (record : LogRecord) : option pystr :=
  match (logging.WARNING <=? levelno record)%Z, exc_info record with
  | true, Some e => Some (List.concat e)
  | _, _ => None
  end.

Definition option_keys (o : option pystr) (k : pystr) : list pystr :=
  match o with
  | Some _ => [k]
  | None => []
  end.

(** A process that has not logged yet, at some moment of 2023. *)
Definition fresh_process : World :=
  {| tubalog := {| l_level := 0; l_handlers := []; l_propagate := true |};
     _logger := None;
     _trace_id_var := None;
     tokens := [];
     clock := 1700000000;
     written := [] |}.

(** The configuration of [log_test.py]: [Config(app_name="test",
    debug=False)]. *)
Definition test_config : Config.t := Config.mk [] (lit "test") false false.

(** The process of [log_test.py] once [setup_module] has run. *)
Definition test_process : World := run (init test_config) fresh_process.


(** The logger of the default configuration: threshold [DEBUG], the
    console sink alone. *)
Definition default_logger : Logger :=
  {| l_level := logging.DEBUG;
     l_handlers :=
       [ {| h_stream := Stdout; h_formatter := Some JSONFormatter;
            h_level := logging.DEBUG; h_filters := [] |} ];
     l_propagate := false |}.

(** Multi-file mode with debug on and a log path set. *)
Definition multi_file_config : Config.t :=
  Config.mk (lit "/var/log") (lit "app") true true.

(** An [ERROR] record with an exception attached, as
    [Logger.exception] would make it. *)
Definition record_with_exception : LogRecord :=
  makeRecord logging.ERROR (lit "boom")
    (Some [lit "Traceback (most recent call last):"; [10%N];
           lit "ValueError: boom"; [10%N]]).

(** A process in the middle of a request: a trace id is set. *)
Definition traced_process : World :=
  with_trace fresh_process (Some (lit "abc-123")) [false].

(* ================================================================== *)
(** ** [log_test.py] *)
(* ================================================================== *)









(* ================================================================== *)
(** ** Names for the sinks and lines of a call *)
(* ================================================================== *)

(** The suffix [_create_logger] gives the file of each level in
    multi-file mode. *)
Definition level_suffix (s : Severity) : pystr :=
  match s with
  | DEBUG => lit "_debug.log"
  | INFO => lit "_info.log"
  | WARN => lit "_warn.log"
  | ERROR => lit "_error.log"
  | FATAL => lit "_fatal.log"
  end.

(** The file a configuration opens for a suffix. *)
Definition log_file (config : Config.t) (suffix : pystr) : Stream :=
  FileStream
    (os_path_join (Config.log_path config) (Config.app_name config ++ suffix)).

(** The line of a call that logs [text]: the JSON rendering of its record,
    with the time and the trace id of the moment, and the terminator. *)
Definition line_of (c : Call) (w : World) (text : pystr) : pystr :=
  json_dumps
    (log_entry (clock w)
       match call_trace c with
       | Some t => Some t
       | None => _trace_id_var w
       end
       (makeRecord (severity_level (call_severity c)) text None))
  ++ terminator.

(** The number of file sinks a configuration asks for. *)
Definition file_sinks (config : Config.t) : nat :=
  if truthy (Config.log_path config) then
    if Config.multi_file config then
      if Config.debug config then 5 else 4
    else 1
  else 0.

(** The token bookkeeping after a call: a [ctx_] call has handed out one
    token and used it. *)
Definition tokens_after (c : Call) (w : World) : list bool :=
  match call_trace c with
  | Some _ => mark_used (List.length (tokens w)) (tokens w ++ [false])
  | None => tokens w
  end.

(** What [from_context()] answers for a value of the variable. *)
Definition present (v : option pystr) : option pystr * bool :=
  (v, match v with Some _ => true | None => false end).



(** The process after [init] in multi-file mode with debug on. *)
Definition multi_file_process : World := run (init multi_file_config) fresh_process.



(* ================================================================== *)
(** ** Facts about strings and numbers *)
(* ================================================================== *)

Section StringFacts.
Local Open Scope N_scope.

Lemma pystr_eqb_eq (a b : pystr) : pystr_eqb a b = true <-> a = b.
Proof.
  revert b; induction a as [|x a IH]; intros [|y b]; simpl;
    try (split; [discriminate | discriminate]); [tauto|].
  rewrite andb_true_iff, N.eqb_eq, IH.
  split; [intros [-> ->]; reflexivity | intros E; injection E; auto].
Qed.

Lemma uint_digits (d : Decimal.uint) :
  forallb is_digit (lit (NilEmpty.string_of_uint d)) = true.
Proof. induction d; cbn; auto. Qed.

Lemma uint_nonempty (d : Decimal.uint) :
  d <> Decimal.Nil -> lit (NilEmpty.string_of_uint d) <> [].
Proof. destruct d; intros H; [congruence | discriminate ..]. Qed.

(** The decimal rendering of a natural number is a non-empty run of
    digits. *)
Lemma str_of_int_digits (z : Z) :
  (0 <= z)%Z ->
  str_of_int z <> [] /\ forallb is_digit (str_of_int z) = true.
Proof.
  intros Hz. unfold str_of_int.
  destruct z as [|p|p]; [split; [discriminate | reflexivity] | | lia].
  simpl. pose proof (Unsigned.to_uint_nonnil p) as Hn.
  unfold NilZero.string_of_uint.
  destruct (Pos.to_uint p) eqn:E; try congruence;
    (split; [apply uint_nonempty; congruence | apply uint_digits]).
Qed.

End StringFacts.

(* ================================================================== *)
(** ** [json.dumps] and the decoder *)
(* ================================================================== *)

Section JsonFacts.
Local Open Scope N_scope.

Lemma hex_below_32 (c : pychar) :
  (c <? 32) = true ->
  hex4 48 48 (hex_digit (c / 16)) (hex_digit (c mod 16)) = Some c.
Proof.
  intros H. apply N.ltb_lt in H.
  destruct c as [|p]; [reflexivity|].
  do 5 (try destruct p as [p|p|]); try reflexivity; exfalso; lia.
Qed.

Ltac split_escape :=
  unfold escape_char;
  repeat match goal with
         | |- context [if ?b then _ else _] => destruct b eqn:?
         end.

(** No control character leaves the string encoder. *)
Lemma escape_char_printable (c : pychar) :
  Forall (fun x => 32 <= x) (escape_char c).
Proof.
  split_escape; repeat constructor; try lia.
  - generalize (c / 16); intros n; unfold hex_digit; destruct (n <? 10); lia.
  - generalize (c mod 16); intros n; unfold hex_digit; destruct (n <? 10); lia.
  - apply N.ltb_ge; assumption.
Qed.

(** A character that is neither a control character, nor the quote, nor
    the backslash, is written as itself. *)
Lemma escape_char_literal (c : pychar) :
  32 <= c -> c <> 34 -> c <> 92 -> escape_char c = [c].
Proof.
  intros H1 H2 H3. split_escape; try reflexivity;
    repeat match goal with
           | H : (_ =? _) = true |- _ => apply N.eqb_eq in H
           | H : (_ <? _) = true |- _ => apply N.ltb_lt in H
           end; lia.
Qed.

Lemma decode_escape_char (c : pychar) (tl : pystr) :
  decode_string_body (escape_char c ++ tl) = push c (decode_string_body tl).
Proof.
  unfold escape_char.
  destruct (c =? 34) eqn:E1; [apply N.eqb_eq in E1; subst; reflexivity|].
  destruct (c =? 92) eqn:E2; [apply N.eqb_eq in E2; subst; reflexivity|].
  destruct (c =? 10) eqn:E3; [apply N.eqb_eq in E3; subst; reflexivity|].
  destruct (c =? 13) eqn:E4; [apply N.eqb_eq in E4; subst; reflexivity|].
  destruct (c =? 9) eqn:E5; [apply N.eqb_eq in E5; subst; reflexivity|].
  destruct (c =? 8) eqn:E6; [apply N.eqb_eq in E6; subst; reflexivity|].
  destruct (c =? 12) eqn:E7; [apply N.eqb_eq in E7; subst; reflexivity|].
  destruct (c <? 32) eqn:E8.
  - cbn [app decode_string_body].
    change (92 =? 34) with false. change (92 =? 92) with true.
    change (117 =? 117) with true. cbv iota.
    rewrite (hex_below_32 _ E8). reflexivity.
  - cbn [app decode_string_body]. rewrite E1, E2, E8. reflexivity.
Qed.

Lemma decode_string_body_encoded (s tl : pystr) :
  decode_string_body (flat_map escape_char s ++ 34 :: tl) = Some (s, tl).
Proof.
  induction s as [|c s IH]; [reflexivity|].
  cbn [flat_map]. rewrite <- app_assoc, decode_escape_char, IH. reflexivity.
Qed.

(** Reading back an encoded string gives the string. *)
Lemma decode_string_encoded (s tl : pystr) :
  decode_string (encode_basestring s ++ tl) = Some (s, tl).
Proof.
  unfold encode_basestring. cbn [app decode_string].
  change (34 =? 34) with true. cbv iota.
  rewrite <- app_assoc. apply decode_string_body_encoded.
Qed.

Lemma str_join_cons (sep p q : pystr) (l : list pystr) :
  str_join sep (p :: q :: l) = p ++ sep ++ str_join sep (q :: l).
Proof. reflexivity. Qed.

Lemma decode_members_step (fuel : nat) (k v tl : pystr) :
  decode_members (S fuel) (encode_item (k, v) ++ tl) =
  match tl with
  | d :: s2 =>
      if d =? 125 then Some ([(k, v)], s2)
      else if d =? 44 then
        match decode_members fuel s2 with
        | Some (m, s3) => Some ((k, v) :: m, s3)
        | None => None
        end
      else None
  | [] => None
  end.
Proof.
  cbn [decode_members]. unfold encode_item. cbn [fst snd].
  rewrite <- app_assoc, decode_string_encoded.
  change (lit ":") with [58]. cbn [app].
  change (58 =? 58) with true. cbv iota.
  rewrite decode_string_encoded. reflexivity.
Qed.

Lemma decode_members_encoded (d : dict) :
  d <> [] ->
  forall (fuel : nat) (tl : pystr),
    (List.length d <= fuel)%nat ->
    decode_members fuel
      (str_join (lit ",") (map encode_item d) ++ 125 :: tl) = Some (d, tl).
Proof.
  induction d as [|[k v] d IH]; [congruence|].
  intros _ fuel tl Hf. destruct fuel as [|fuel]; [simpl in Hf; lia|].
  destruct d as [|kv d].
  - cbn [map str_join]. rewrite decode_members_step. reflexivity.
  - change (map encode_item ((k, v) :: kv :: d))
      with (encode_item (k, v) :: encode_item kv :: map encode_item d).
    rewrite str_join_cons, <- !app_assoc, decode_members_step.
    change (lit ",") with [44]. cbn [app].
    change (44 =? 125) with false. change (44 =? 44) with true. cbv iota.
    change (encode_item kv :: map encode_item d)
      with (map encode_item (kv :: d)).
    rewrite IH; [reflexivity | congruence | simpl in Hf |- *; lia].
Qed.

Lemma str_join_length (sep : pystr) (l : list pystr) :
  (forall p, In p l -> p <> []) ->
  (List.length l <= List.length (str_join sep l))%nat.
Proof.
  induction l as [|p l IH]; intros H; [simpl; lia|].
  assert (Hp : (1 <= List.length p)%nat).
  { specialize (H p (or_introl eq_refl)). destruct p; [congruence | simpl; lia]. }
  destruct l as [|q l]; [simpl; lia|].
  rewrite str_join_cons, !length_app.
  assert (List.length (q :: l) <= List.length (str_join sep (q :: l)))%nat
    by (apply IH; intros; apply H; right; assumption).
  simpl List.length in *. lia.
Qed.

(** Round trip: the decoder reads back what [json.dumps] wrote. *)
Lemma json_decode_object (c : pychar) (tl : pystr) :
  c <> 125 ->
  json_decode (123 :: c :: tl) =
  match decode_members (List.length (c :: tl)) (c :: tl) with
  | Some (m, []) => Some m
  | _ => None
  end.
Proof.
  intros Hc. apply N.eqb_neq in Hc.
  unfold json_decode. change (123 =? 123) with true. cbv iota.
  rewrite Hc. reflexivity.
Qed.

Lemma json_decode_dumps (d : dict) : json_decode (json_dumps d) = Some d.
Proof.
  destruct d as [|kv d]; [reflexivity|].
  unfold json_dumps. change (lit "{") with [123]. change (lit "}") with [125].
  set (body := str_join (lit ",") (map encode_item (kv :: d))).
  assert (Hb : exists tl, body = 34 :: tl).
  { subst body. destruct kv as [k v]. destruct d; cbn [map str_join];
      unfold encode_item, encode_basestring; cbn [fst app]; eauto. }
  assert (Hlen : (List.length (kv :: d) <= List.length (body ++ [125%N]))%nat).
  { rewrite length_app. subst body.
    pose proof (str_join_length (lit ",") (map encode_item (kv :: d))) as H.
    rewrite length_map in H.
    assert (forall p, In p (map encode_item (kv :: d)) -> p <> []).
    { intros p Hp. apply in_map_iff in Hp. destruct Hp as [[k v] [<- _]].
      unfold encode_item, encode_basestring. cbn. congruence. }
    specialize (H H0). lia. }
  pose proof (decode_members_encoded (kv :: d) ltac:(congruence) _ [] Hlen)
    as Hd.
  fold body in Hd. destruct Hb as [tl Hb].
  rewrite Hb in Hd |- *.
  change ([123] ++ (34 :: tl) ++ [125]) with (123 :: 34 :: tl ++ [125]).
  change ((34 :: tl) ++ [125]) with (34 :: tl ++ [125]) in Hd.
  rewrite json_decode_object by discriminate.
  unfold pystr, pychar in Hd |- *. rewrite Hd. reflexivity.
Qed.

Lemma encode_basestring_printable (s : pystr) :
  Forall (fun x => 32 <= x) (encode_basestring s).
Proof.
  unfold encode_basestring. apply Forall_app. split.
  - constructor; [lia|]. induction s as [|c s IH]; cbn [flat_map]; [constructor|].
    apply Forall_app. split; [apply escape_char_printable | exact IH].
  - repeat constructor; lia.
Qed.

(** The output of [json.dumps] holds no control character, so no line
    break: it is one line. *)
Lemma json_dumps_printable (d : dict) :
  Forall (fun x => 32 <= x) (json_dumps d).
Proof.
  unfold json_dumps. change (lit "{") with [123]. change (lit "}") with [125].
  apply Forall_app. split; [repeat constructor; lia|].
  apply Forall_app. split; [|repeat constructor; lia].
  induction d as [|[k v] d IH]; [constructor|].
  assert (Hi : Forall (fun x => 32 <= x) (encode_item (k, v))).
  { unfold encode_item. cbn [fst snd]. change (lit ":") with [58].
    apply Forall_app; split; [apply encode_basestring_printable|].
    apply Forall_app; split; [|apply encode_basestring_printable].
    repeat constructor; lia. }
  destruct d as [|kv d]; [exact Hi|].
  change (map encode_item ((k, v) :: kv :: d))
    with (encode_item (k, v) :: map encode_item (kv :: d)).
  change (str_join (lit ",") (encode_item (k, v) :: map encode_item (kv :: d)))
    with (encode_item (k, v) ++ lit "," ++ str_join (lit ",") (map encode_item (kv :: d))).
  change (lit ",") with [44].
  apply Forall_app; split; [exact Hi|].
  apply Forall_app; split; [repeat constructor; lia | exact IH].
Qed.

End JsonFacts.

(* ================================================================== *)
(** ** Running the logger *)
(* ================================================================== *)

Section Execution.

Lemma with_written_id (w : World) : with_written w (written w) = w.
Proof. destruct w; reflexivity. Qed.

Lemma StreamHandler_emit_spec (h : Handler) (record : LogRecord) (w : World) :
  StreamHandler_emit h record w =
  (Ok tt,
   with_written w (written w ++ [(h_stream h, rendered w h record ++ terminator)])).
Proof.
  unfold StreamHandler_emit, try_except, bind, Handler_format, rendered.
  destruct (h_formatter h) as [[]|]; reflexivity.
Qed.

(** One pass over the handlers writes, in order, for each handler that
    accepts the record, the line its formatter makes. *)
Lemma callHandlers_spec (hs : list Handler) (record : LogRecord) :
  forall w : World,
    callHandlers hs record w =
    (Ok tt, with_written w (written w ++ deliveries w record hs)).
Proof.
  induction hs as [|h hs IH]; intros w.
  - unfold deliveries. cbn. rewrite app_nil_r, with_written_id. reflexivity.
  - cbn [callHandlers]. unfold bind, deliveries, accepts, Handler_handle.
    cbn [filter].
    destruct (h_level h <=? levelno record)%Z; cbn [andb].
    + destruct (Filterer_filter (h_filters h) record).
      * rewrite StreamHandler_emit_spec, IH. cbn [map].
        unfold deliveries, accepts, with_written. cbn.
        rewrite <- app_assoc. reflexivity.
      * unfold ret. rewrite IH. reflexivity.
    + unfold ret. rewrite IH. reflexivity.
Qed.

Lemma Logger_log_spec (level : Z) (m : pystr) (w : World) :
  Logger_log TubaLog level m w =
  (Ok tt, with_written w (written w ++ emitted w level m)).
Proof.
  unfold Logger_log, bind, deref, emitted.
  destruct (isEnabledFor (tubalog w) level).
  - apply callHandlers_spec.
  - unfold ret. rewrite app_nil_r, with_written_id. reflexivity.
Qed.

Lemma _get_logger_spec (w : World) : _get_logger w = (Ok TubaLog, ready w).
Proof.
  unfold _get_logger, ready. destruct (_logger w) as [[]|]; reflexivity.
Qed.

Lemma ready_logger (w : World) : _logger (ready w) = Some TubaLog.
Proof. unfold ready. destruct (_logger w) as [[]|] eqn:E; [exact E | reflexivity]. Qed.

Lemma ready_fields (w : World) :
  _trace_id_var (ready w) = _trace_id_var w /\
  tokens (ready w) = tokens w /\
  clock (ready w) = clock w /\
  written (ready w) = written w.
Proof. unfold ready. destruct (_logger w); repeat split; reflexivity. Qed.

Lemma perform_plain (s : Severity) (args : list pyval) (w : World) :
  perform (Plain s args) w = plain_behaviour (Plain s args) w.
Proof.
  unfold plain_behaviour, call_outcome. cbn [call_message call_severity].
  destruct s; cbn [perform severity_level];
    unfold debug, info, warn, error, fatal, bind,
      Logger_debug, Logger_info, Logger_warning, Logger_error, Logger_critical;
    rewrite _get_logger_spec, Logger_log_spec; reflexivity.
Qed.

Lemma perform_formatted (s : Severity) (m : pystr) (args : list pyval)
  (w : World) :
  perform (Formatted s m args) w = plain_behaviour (Formatted s m args) w.
Proof.
  unfold plain_behaviour, call_outcome. cbn [call_message call_severity].
  destruct s; cbn [perform severity_level];
    unfold debugf, infof, warnf, errorf, fatalf, bind, interpolated,
      Logger_debug, Logger_info, Logger_warning, Logger_error, Logger_critical;
    rewrite _get_logger_spec;
    (destruct args as [|a args];
     [ unfold ret; rewrite Logger_log_spec; reflexivity
     | unfold lift; destruct (percent_format m (a :: args));
       [rewrite Logger_log_spec; reflexivity | reflexivity] ]).
Qed.

Lemma plain_behaviour_tokens (c : Call) (w : World) :
  tokens (snd (plain_behaviour c w)) = tokens w.
Proof.
  unfold plain_behaviour.
  destruct (call_message c); cbn; apply ready_fields.
Qed.

Lemma nth_error_fresh (l : list bool) :
  nth_error (l ++ [false]) (List.length l) = Some false.
Proof. induction l; simpl; auto. Qed.

(** A [ctx_] function: install the trace id, run the body once, put the
    previous value back whatever the body did. *)
Lemma scoped_spec (t : pystr) (body : M unit) (w : World) :
  tokens (snd (body (install t w))) = tokens (install t w) ->
  scoped t body w =
  (fst (body (install t w)),
   with_trace (snd (body (install t w))) (_trace_id_var w)
     (mark_used (List.length (tokens w)) (tokens w ++ [false]))).
Proof.
  intros Ht. unfold scoped, bind, with_trace_id, ContextVar_set, try_finally.
  fold (install t w).
  destruct (body (install t w)) as [r w1] eqn:E. cbn [fst snd] in *.
  unfold reset_trace_id, ContextVar_reset. cbn [tok_id tok_old].
  rewrite Ht. unfold install at 1. cbn [tokens with_trace].
  rewrite nth_error_fresh. unfold install. cbn [tokens with_trace].
  reflexivity.
Qed.

Lemma perform_spec (c : Call) (w : World) : perform c w = behaviour c w.
Proof.
  destruct c as [s args|s m args|s t args|s t m args];
    unfold behaviour; cbn [call_trace call_body].
  - apply perform_plain.
  - apply perform_formatted.
  - rewrite <- perform_plain.
    pose proof (scoped_spec t (perform (Plain (ctx_severity s) args)) w) as H.
    rewrite perform_plain in H at 1.
    specialize (H (plain_behaviour_tokens _ _)).
    destruct s; exact H.
  - rewrite <- perform_formatted.
    pose proof
      (scoped_spec t (perform (Formatted (ctx_severity s) m args)) w) as H.
    rewrite perform_formatted in H at 1.
    specialize (H (plain_behaviour_tokens _ _)).
    destruct s; exact H.
Qed.

End Execution.

(* ================================================================== *)
(** ** What a call leaves behind *)
(* ================================================================== *)

Section Effects.

Lemma call_body_message (c : Call) : call_message (call_body c) = call_message c.
Proof. destruct c; reflexivity. Qed.

Lemma call_body_severity (c : Call) :
  call_severity (call_body c) = call_severity c.
Proof. destruct c; reflexivity. Qed.

Lemma call_body_outcome (c : Call) : call_outcome (call_body c) = call_outcome c.
Proof.
  unfold call_outcome. rewrite call_body_message, call_body_severity.
  reflexivity.
Qed.

Lemma plain_behaviour_outcome (c : Call) (w : World) :
  fst (plain_behaviour c w) = call_outcome c.
Proof.
  unfold plain_behaviour, call_outcome.
  destruct (call_message c); reflexivity.
Qed.

(** How a call ends depends on its message alone. *)
Lemma perform_outcome (c : Call) (w : World) :
  outcome (perform c) w = call_outcome c.
Proof.
  unfold outcome. rewrite perform_spec. unfold behaviour.
  destruct (call_trace c); cbn [fst];
    rewrite plain_behaviour_outcome; auto using call_body_outcome.
Qed.

Lemma plain_behaviour_written (c : Call) (w : World) :
  written (snd (plain_behaviour c w)) =
  written w ++
  match call_message c with
  | Ok s => emitted (ready w) (severity_level (call_severity c)) s
  | Raise _ => []
  end.
Proof.
  unfold plain_behaviour.
  destruct (call_message c); cbn [snd written with_written].
  - destruct (ready_fields w) as (_ & _ & _ & ->). reflexivity.
  - destruct (ready_fields w) as (_ & _ & _ & ->). symmetry; apply app_nil_r.
Qed.

(** A call appends its writes to the streams and takes nothing away. *)
Lemma perform_written (c : Call) (w : World) :
  written (run (perform c) w) = written w ++ call_writes c w.
Proof.
  unfold run, call_writes, scene. rewrite perform_spec. unfold behaviour.
  destruct (call_trace c) as [t|] eqn:Et; cbn [snd].
  - unfold with_trace at 1. cbn [written].
    rewrite plain_behaviour_written, call_body_message, call_body_severity.
    reflexivity.
  - apply plain_behaviour_written.
Qed.

Lemma plain_behaviour_trace (c : Call) (w : World) :
  _trace_id_var (snd (plain_behaviour c w)) = _trace_id_var w.
Proof.
  unfold plain_behaviour. destruct (call_message c); cbn; apply ready_fields.
Qed.

(** After any call the ambient trace id is what it was before. *)
Lemma perform_trace (c : Call) (w : World) :
  _trace_id_var (run (perform c) w) = _trace_id_var w.
Proof.
  unfold run. rewrite perform_spec. unfold behaviour.
  destruct (call_trace c); [reflexivity | apply plain_behaviour_trace].
Qed.

Lemma ready_install (t : pystr) (w : World) :
  tubalog (ready (install t w)) = tubalog (ready w) /\
  _logger (ready (install t w)) = _logger (ready w).
Proof.
  unfold ready, install. cbn [_logger with_trace].
  destruct (_logger w); split; reflexivity.
Qed.

Lemma plain_behaviour_logger (c : Call) (w : World) :
  tubalog (snd (plain_behaviour c w)) = tubalog (ready w) /\
  _logger (snd (plain_behaviour c w)) = Some TubaLog.
Proof.
  unfold plain_behaviour.
  destruct (call_message c); cbn [snd tubalog _logger with_written];
    split; auto using ready_logger.
Qed.

(** A call leaves the logger as it found it, once looked up. *)
Lemma perform_logger (c : Call) (w : World) :
  tubalog (run (perform c) w) = tubalog (ready w) /\
  _logger (run (perform c) w) = Some TubaLog.
Proof.
  unfold run. rewrite perform_spec. unfold behaviour.
  destruct (call_trace c) as [t|]; cbn [snd].
  - destruct (plain_behaviour_logger (call_body c) (install t w)) as [H1 H2].
    split; [exact (eq_trans H1 (proj1 (ready_install t w))) | exact H2].
  - apply plain_behaviour_logger.
Qed.

Lemma scene_logger (c : Call) (w : World) :
  tubalog (scene c w) = tubalog (ready w).
Proof.
  unfold scene. destruct (call_trace c); [apply ready_install | reflexivity].
Qed.

Lemma scene_clock (c : Call) (w : World) : clock (scene c w) = clock w.
Proof.
  unfold scene. destruct (call_trace c) as [t|].
  - destruct (ready_fields (install t w)) as (_ & _ & -> & _). reflexivity.
  - apply ready_fields.
Qed.

Lemma scene_trace (c : Call) (w : World) :
  _trace_id_var (scene c w) =
  match call_trace c with
  | Some t => Some t
  | None => _trace_id_var w
  end.
Proof.
  unfold scene. destruct (call_trace c) as [t|].
  - destruct (ready_fields (install t w)) as (-> & _). reflexivity.
  - apply ready_fields.
Qed.

Lemma configured_ready (config : Config.t) (w : World) :
  configured_by config w -> ready w = w.
Proof. intros [H _]. unfold ready. rewrite H. reflexivity. Qed.

End Effects.

(* ================================================================== *)
(** ** The loggers [init] makes *)
(* ================================================================== *)

Section Configured.

Lemma suffix_paths_differ (a app s1 s2 : pystr) :
  os_path_join a (app ++ 95%N :: s1) = os_path_join a (app ++ 95%N :: s2) ->
  s1 = s2.
Proof.
  unfold os_path_join.
  assert (Hs : forall s, starts_with_sep (app ++ 95%N :: s)
                         = starts_with_sep (app ++ [95%N]))
    by (intros s; destruct app; reflexivity).
  rewrite (Hs s1), (Hs s2).
  destruct (starts_with_sep (app ++ [95%N])).
  - intros E. apply app_inv_head in E. congruence.
  - destruct (match a with [] => true | _ :: _ => ends_with_sep a end);
      intros E; repeat apply app_inv_head in E; congruence.
Qed.

Ltac by_config config :=
  destruct config as [[|c p] name [|] [|]];
  cbn -[os_path_join List.app lit].

Ltac each_handler H :=
  repeat (destruct H as [H|H]; [subst; cbn -[os_path_join List.app lit]|]);
  try contradiction.

Lemma init_configures (config : Config.t) (w : World) :
  configured_by config (run (init config) w).
Proof. unfold configured_by. by_config config; split; reflexivity. Qed.

Lemma implicit_init_configures (w : World) :
  _logger w = None -> configured_by default_config (ready w).
Proof. intros H. unfold ready. rewrite H. apply init_configures. Qed.

Lemma configured_level (config : Config.t) (w : World) :
  l_level (tubalog (run (init config) w)) = threshold config.
Proof. by_config config; reflexivity. Qed.

(** Every sink formats with the [JSONFormatter], has no filter or the
    [LevelFilter] of its own level, and sits at or above the logger's
    threshold. *)
Lemma configured_handler (config : Config.t) (w : World) (h : Handler) :
  In h (l_handlers (tubalog (run (init config) w))) ->
  h_formatter h = Some JSONFormatter /\
  (threshold config <= h_level h)%Z /\
  (h_filters h = [] \/ h_filters h = [LevelFilter (h_level h)]) /\
  (h_stream h = Stdout -> h_filters h = []) /\
  (Config.multi_file config = false -> h_filters h = []) /\
  (Config.multi_file config = true -> h_stream h <> Stdout ->
   h_filters h = [LevelFilter (h_level h)]).
Proof.
  unfold threshold.
  by_config config; intros H; each_handler H;
    repeat split; auto; try discriminate; try congruence;
    unfold logging.DEBUG, logging.INFO, logging.WARNING, logging.ERROR,
      logging.CRITICAL; lia.
Qed.


(** No two sinks write to the same stream. *)
Lemma configured_streams (config : Config.t) (w : World) :
  NoDup (map h_stream (l_handlers (tubalog (run (init config) w)))).
Proof.
  by_config config;
    repeat (constructor;
            [ intros H; cbn -[os_path_join List.app lit] in H;
              repeat (destruct H as [H|H]; try discriminate H;
                      try (injection H as H;
                           change (lit "_info.log") with (95 :: lit "info.log")%N in H;
                           change (lit "_warn.log") with (95 :: lit "warn.log")%N in H;
                           change (lit "_error.log") with (95 :: lit "error.log")%N in H;
                           change (lit "_fatal.log") with (95 :: lit "fatal.log")%N in H;
                           change (lit "_debug.log") with (95 :: lit "debug.log")%N in H;
                           apply suffix_paths_differ in H; discriminate H));
              contradiction
            | ]);
    constructor.
Qed.

Lemma accepts_iff (h : Handler) (record : LogRecord) :
  h_filters h = [] \/ h_filters h = [LevelFilter (h_level h)] ->
  accepts h record = true <-> sink_accepts h (levelno record).
Proof.
  unfold accepts, sink_accepts, exact_filter, Filterer_filter.
  intros [-> | ->]; cbn [forallb LevelFilter_filter];
    rewrite ?andb_true_r, ?andb_true_iff, ?Z.leb_le, ?Z.eqb_eq.
  - intuition.
  - split; [intros [H1 H2]; split; [lia | right; congruence]
           | intros [H1 [H2|H2]]; [discriminate | split; [lia | congruence]]].
Qed.

End Configured.

(* ================================================================== *)
(** ** The formatter's dictionary and the lines that reach the sinks *)
(* ================================================================== *)

Section Lines.

(** The entry, key by key. *)
Lemma log_entry_fields (now : Z) (trace_id : option pystr)
  (record : LogRecord) :
  let entry := log_entry now trace_id record in
  dict_keys entry =
    [lit "level"; lit "event_time"; lit "msg"]
      ++ option_keys trace_id (lit "trace_id")
      ++ option_keys (stacktrace_of record) (lit "stacktrace") /\
  dict_get entry (lit "level") = Some (str_lower (levelname record)) /\
  dict_get entry (lit "event_time") = Some (str_of_int now) /\
  dict_get entry (lit "msg") = Some (msg record) /\
  dict_get entry (lit "trace_id") = trace_id /\
  dict_get entry (lit "stacktrace") = stacktrace_of record.
Proof.
  unfold log_entry, stacktrace_of, getMessage.
  destruct trace_id as [t|];
    destruct (logging.WARNING <=? levelno record)%Z;
    destruct (exc_info record) as [e|];
    repeat split; reflexivity.
Qed.

(** A record made without [exc_info] has no stack trace to render. *)
Lemma stacktrace_of_makeRecord (level : Z) (m : pystr) :
  stacktrace_of (makeRecord level m None) = None.
Proof.
  unfold stacktrace_of. cbn [exc_info makeRecord levelno].
  destruct (logging.WARNING <=? level)%Z; reflexivity.
Qed.

Lemma json_dumps_member (d : dict) (kv : pystr * pystr) :
  In kv d -> exists pre post, json_dumps d = pre ++ encode_item kv ++ post.
Proof.
  unfold json_dumps. intros H.
  enough (exists pre post,
             str_join (lit ",") (map encode_item d)
             = pre ++ encode_item kv ++ post) as (pre & post & ->).
  { exists (lit "{" ++ pre), (post ++ lit "}").
    rewrite <- !app_assoc. reflexivity. }
  induction d as [|x d IH]; [contradiction|].
  destruct d as [|y d].
  - destruct H as [->|[]]. exists [], []. cbn. rewrite app_nil_r. reflexivity.
  - change (map encode_item (x :: y :: d))
      with (encode_item x :: encode_item y :: map encode_item d).
    rewrite str_join_cons.
    destruct H as [->|H].
    + exists []. eexists. reflexivity.
    + destruct (IH H) as (pre & post & E).
      change (encode_item y :: map encode_item d)
        with (map encode_item (y :: d)).
      rewrite E. exists (encode_item x ++ lit "," ++ pre), post.
      rewrite <- !app_assoc. reflexivity.
Qed.

(** The message sits in the line as the string encoder wrote it. *)
Lemma message_in_line (now : Z) (trace_id : option pystr)
  (record : LogRecord) :
  exists pre post,
    json_dumps (log_entry now trace_id record)
    = pre ++ encode_basestring (msg record) ++ post.
Proof.
  destruct (json_dumps_member (log_entry now trace_id record)
              (lit "msg", msg record)) as (pre & post & E).
  { unfold log_entry, getMessage.
    destruct trace_id; destruct (logging.WARNING <=? levelno record)%Z;
      destruct (exc_info record); cbn; auto. }
  rewrite E. unfold encode_item. cbn [fst snd].
  exists (pre ++ encode_basestring (lit "msg") ++ lit ":"), post.
  rewrite <- !app_assoc. reflexivity.
Qed.

(** Every write of a call comes from a sink that accepts the record and
    is the JSON line of that record, with the line terminator. *)
Lemma call_writes_lines (config : Config.t) (w : World) (c : Call)
  (stream : Stream) (text : pystr) :
  configured_by config (ready w) ->
  In (stream, text) (call_writes c w) ->
  exists s h,
    call_message c = Ok s /\
    In h (l_handlers (tubalog (ready w))) /\
    (l_level (tubalog (ready w)) <= severity_level (call_severity c))%Z /\
    accepts h (makeRecord (severity_level (call_severity c)) s None) = true /\
    stream = h_stream h /\
    text = json_dumps
             (log_entry (clock w) (_trace_id_var (scene c w))
                (makeRecord (severity_level (call_severity c)) s None))
           ++ terminator.
Proof.
  intros [_ Hl] H. unfold call_writes in H.
  destruct (call_message c) as [s|e]; [|contradiction].
  unfold emitted in H. rewrite scene_logger in H.
  destruct (isEnabledFor _ _) eqn:En; [|contradiction].
  unfold deliveries in H. apply in_map_iff in H.
  destruct H as (h & E & Hh). apply filter_In in Hh. destruct Hh as [Hin Hacc].
  injection E as <- <-.
  exists s, h. repeat split; auto.
  - apply Z.leb_le. exact En.
  - unfold rendered. rewrite scene_clock.
    rewrite Hl in Hin. apply configured_handler in Hin.
    destruct Hin as (-> & _). reflexivity.
Qed.


End Lines.

(* ================================================================== *)
(** ** Properties of the specification *)
(* ================================================================== *)

Lemma NoDup_map_eq {A B : Type} (f : A -> B) (l : list A) (a b : A) :
  NoDup (map f l) -> In a l -> In b l -> f a = f b -> a = b.
Proof.
  induction l as [|x l IH]; [contradiction|].
  cbn [map]. intros Hn Ha Hb E. inversion Hn as [|? ? Hx Hl]; subst.
  destruct Ha as [->|Ha], Hb as [->|Hb]; auto.
  - exfalso. apply Hx. rewrite E. apply in_map. exact Hb.
  - exfalso. apply Hx. rewrite <- E. apply in_map. exact Ha.
Qed.

(** C1.  Sink routing.  Take a logger made by [init config] and any call
    that has a message [s] to log, at level [level].  The call appends
    some lines to the streams and, for every sink of the logger: a line
    goes to the sink's stream if and only if [level] is at least the
    sink's minimum level and the sink has no exact-level filter or its
    filter is [level]; that line is the JSON rendering of the record.
    Anything is written only if [level] is at least the logger's
    threshold.  The console sink and the single-file sink have no exact
    filter; in multi-file mode every file sink has one, for its own
    level. *)
Theorem sink_routing (config : Config.t) (w : World) (c : Call) (s : pystr) :
  configured_by config w ->
  call_message c = Ok s ->
  let level := severity_level (call_severity c) in
  let sinks := l_handlers (tubalog w) in
  exists lines : list (Stream * pystr),
    written (run (perform c) w) = written w ++ lines /\
    (forall h : Handler,
        In h sinks ->
        (exists text, In (h_stream h, text) lines) <-> sink_accepts h level) /\
    (forall stream text,
        In (stream, text) lines ->
        text = json_dumps
                 (log_entry (clock w) (_trace_id_var (scene c w))
                    (makeRecord level s None))
               ++ terminator) /\
    (lines <> [] -> (l_level (tubalog w) <= level)%Z) /\
    (forall h : Handler,
        In h sinks ->
        (h_stream h = Stdout -> exact_filter h = None) /\
        (Config.multi_file config = false -> exact_filter h = None) /\
        (Config.multi_file config = true -> h_stream h <> Stdout ->
         exact_filter h = Some (h_level h))).
Proof.
  intros Hc Hs level sinks.
  pose proof (configured_ready config w Hc) as Hr.
  assert (Hc' : configured_by config (ready w)) by (rewrite Hr; exact Hc).
  destruct Hc as [Hg Hl].
  exists (call_writes c w). split; [apply perform_written|].
  split; [|split; [|split]].
  - intros h Hin. subst sinks. split.
    + intros [text Ht].
      destruct (call_writes_lines config w c _ _ Hc' Ht)
        as (s' & h' & Hs' & Hin' & _ & Hacc & Hst & _).
      rewrite Hr in Hin'. rewrite Hs in Hs'. injection Hs' as <-.
      assert (h' = h) as ->.
      { apply (NoDup_map_eq h_stream (l_handlers (tubalog w))); auto.
        rewrite Hl. apply configured_streams. }
      apply (accepts_iff h (makeRecord level s None)); auto.
      rewrite Hl in Hin. apply configured_handler in Hin. tauto.
    + intros Hacc.
      assert (Hh := Hin). rewrite Hl in Hh. apply configured_handler in Hh.
      destruct Hh as (Hf & Hth & Hfil & _).
      apply (accepts_iff h (makeRecord level s None)) in Hacc; auto.
      exists (rendered (scene c w) h (makeRecord level s None) ++ terminator).
      unfold call_writes. rewrite Hs. unfold emitted.
      rewrite scene_logger, Hr.
      assert (En : isEnabledFor (tubalog w) level = true).
      { unfold isEnabledFor. rewrite Hl, configured_level. apply Z.leb_le.
        unfold accepts in Hacc. apply andb_true_iff in Hacc.
        destruct Hacc as [Hacc _]. apply Z.leb_le in Hacc.
        cbn [levelno makeRecord] in Hacc. lia. }
      fold level. rewrite En. unfold deliveries.
      apply (in_map (fun h0 => (h_stream h0, rendered (scene c w) h0 (makeRecord level s None) ++ terminator))).
      apply filter_In. split; assumption.
  - intros stream text Ht.
    destruct (call_writes_lines config w c _ _ Hc' Ht) as (s' & h' & Hs' & _ & _ & _ & _ & E).
    rewrite Hs in Hs'. injection Hs' as <-. exact E.
  - intros Hne. destruct (call_writes c w) as [|[stream text] rest] eqn:E;
      [congruence|].
    assert (Ht : In (stream, text) (call_writes c w)) by (rewrite E; left; reflexivity).
    destruct (call_writes_lines config w c _ _ Hc' Ht) as (_ & _ & _ & _ & Hle & _).
    rewrite Hr in Hle. exact Hle.
  - intros h Hin. subst sinks. rewrite Hl in Hin.
    apply configured_handler in Hin.
    destruct Hin as (_ & _ & _ & H1 & H2 & H3). unfold exact_filter.
    repeat split; intros.
    + rewrite H1; auto.
    + rewrite H2; auto.
    + rewrite H3; auto.
Qed.

(** C2.  The record formatter.  With the clock at or after the epoch, the
    formatter returns a line that holds no control character (so it is a
    single line), that the JSON decoder reads back as an object whose keys
    are exactly [level], [event_time], [msg], then [trace_id] if and only
    if an ambient trace id is set, then [stacktrace] if and only if the
    level is at least [WARNING] and an exception is attached; [event_time]
    is the clock as a non-empty string of decimal digits; and the message
    is in the line between quotes, character by character as the string
    encoder writes them, and it writes every character from U+0080 on as
    itself. *)
Theorem formatter_line (record : LogRecord) (w : World) :
  (0 <= clock w)%Z ->
  exists (line : pystr) (entry : dict),
    JSONFormatter_format record w = (Ok line, w) /\
    Forall (fun c => (32 <= c)%N) line /\
    json_decode line = Some entry /\
    dict_keys entry =
      [lit "level"; lit "event_time"; lit "msg"]
        ++ option_keys (_trace_id_var w) (lit "trace_id")
        ++ option_keys (stacktrace_of record) (lit "stacktrace") /\
    dict_get entry (lit "level") = Some (str_lower (levelname record)) /\
    (exists digits,
        dict_get entry (lit "event_time") = Some digits /\
        digits = str_of_int (clock w) /\
        digits <> [] /\ forallb is_digit digits = true) /\
    dict_get entry (lit "msg") = Some (msg record) /\
    dict_get entry (lit "trace_id") = _trace_id_var w /\
    dict_get entry (lit "stacktrace") = stacktrace_of record /\
    (exists pre post,
        line = pre ++ 34%N :: flat_map escape_char (msg record) ++ 34%N :: post) /\
    (forall c, (128 <= c)%N -> escape_char c = [c]).
Proof.
  intros Hclock.
  exists (json_dumps (log_entry (clock w) (_trace_id_var w) record)),
         (log_entry (clock w) (_trace_id_var w) record).
  destruct (log_entry_fields (clock w) (_trace_id_var w) record)
    as (Hk & Hlevel & Htime & Hmsg & Htrace & Hstack).
  destruct (str_of_int_digits (clock w) Hclock) as [Hne Hdig].
  split; [reflexivity|].
  split; [apply json_dumps_printable|].
  split; [apply json_decode_dumps|].
  split; [exact Hk|]. split; [exact Hlevel|].
  split; [exists (str_of_int (clock w)); auto|].
  split; [exact Hmsg|]. split; [exact Htrace|]. split; [exact Hstack|].
  split.
  - destruct (message_in_line (clock w) (_trace_id_var w) record)
      as (pre & post & E).
    exists pre, post. rewrite E. unfold encode_basestring.
    cbn [app]. rewrite <- app_assoc. reflexivity.
  - intros c Hc. apply escape_char_literal; lia.
Qed.

(** The level name that reaches the wire for each severity: the name the
    [logging] library gives the level, in lower case. *)
Lemma level_field_of_call (config : Config.t) (w : World) (c : Call)
  (stream : Stream) (text : pystr) :
  configured_by config (ready w) ->
  In (stream, text) (call_writes c w) ->
  exists entry,
    text = json_dumps entry ++ terminator /\
    dict_get entry (lit "level") =
    Some match call_severity c with
         | DEBUG => lit "debug"
         | INFO => lit "info"
         | WARN => lit "warning"
         | ERROR => lit "error"
         | FATAL => lit "critical"
         end.
Proof.
  intros Hc Ht.
  destruct (call_writes_lines config w c _ _ Hc Ht) as (s & h & _ & _ & _ & _ & _ & ->).
  eexists. split; [reflexivity|].
  match goal with
  | |- dict_get (log_entry ?n ?t ?r) _ = _ =>
      destruct (log_entry_fields n t r) as (_ & -> & _)
  end.
  destruct (call_severity c); reflexivity.
Qed.

(** C3.  The level field for [warn] and [fatal].  After
    [init(Config(app_name="test", debug=False))], [warn("hello")] writes
    one console line whose [level] is ["warning"], and [fatal("hello")] one
    whose [level] is ["critical"]: neither is the lowercase severity name,
    ["warn"] and ["fatal"]. *)
Theorem warn_and_fatal_level_field :
  (exists line entry,
      written (run (warn [PyStr (lit "hello")]) test_process)
      = [(Stdout, line ++ terminator)] /\
      json_decode line = Some entry /\
      dict_get entry (lit "level") = Some (lit "warning") /\
      lit "warning" <> severity_name WARN) /\
  (exists line entry,
      written (run (fatal [PyStr (lit "hello")]) test_process)
      = [(Stdout, line ++ terminator)] /\
      json_decode line = Some entry /\
      dict_get entry (lit "level") = Some (lit "critical") /\
      lit "critical" <> severity_name FATAL).
Proof.
  split.
  - exists (json_dumps (log_entry 1700000000 None
                       (makeRecord logging.WARNING (lit "hello") None))).
    eexists. split; [vm_compute; reflexivity|].
    split; [apply json_decode_dumps|].
    split; [reflexivity | discriminate].
  - exists (json_dumps (log_entry 1700000000 None
                       (makeRecord logging.CRITICAL (lit "hello") None))).
    eexists. split; [vm_compute; reflexivity|].
    split; [apply json_decode_dumps|].
    split; [reflexivity | discriminate].
Qed.

(** C4.  Trace scoping.  First part: whatever the ambient value was,
    [with_trace_id(x)] makes [from_context()] report [x], and
    [reset_trace_id] on the token it returned makes [from_context()] report
    the earlier value again, absent when it was absent (so not [x], unless
    [x] was the earlier value).  Second part: each of [ctx_debug],
    [ctx_info], [ctx_warn], [ctx_error] and their [f] variants ends as the
    function without the prefix ends when run once in the state where the
    trace id is installed, writes what that one call writes, and leaves
    the ambient value as it was before the call, whether the call returned
    or raised.  Third part: a [ctx_infof] whose interpolation fails raises
    the error and still restores the ambient value. *)
Theorem trace_scoping :
  (forall (x : pystr) (w : World),
      exists token w1 w2,
        with_trace_id x w = (Ok token, w1) /\
        outcome from_context w1 = Ok (Some x, true) /\
        reset_trace_id token w1 = (Ok tt, w2) /\
        outcome from_context w2 =
          Ok (_trace_id_var w,
              match _trace_id_var w with Some _ => true | None => false end) /\
        (_trace_id_var w <> Some x ->
         outcome from_context w2 <> Ok (Some x, true))) /\
  (forall (s : CtxSeverity) (t m : pystr) (args : list pyval) (w : World),
      let put_back (w' : World) :=
        with_trace w' (_trace_id_var w)
          (mark_used (List.length (tokens w)) (tokens w ++ [false])) in
      _trace_id_var (install t w) = Some t /\
      perform (CtxPlain s t args) w =
        (outcome (perform (Plain (ctx_severity s) args)) (install t w),
         put_back (run (perform (Plain (ctx_severity s) args)) (install t w))) /\
      perform (CtxFormatted s t m args) w =
        (outcome (perform (Formatted (ctx_severity s) m args)) (install t w),
         put_back (run (perform (Formatted (ctx_severity s) m args))
                    (install t w))) /\
      _trace_id_var (run (perform (CtxPlain s t args)) w) = _trace_id_var w /\
      _trace_id_var (run (perform (CtxFormatted s t m args)) w)
        = _trace_id_var w) /\
  (forall (t : pystr) (w : World),
      outcome (ctx_infof t (lit "hello") [PyInt 5]) w = Raise TypeError /\
      _trace_id_var (run (ctx_infof t (lit "hello") [PyInt 5]) w)
        = _trace_id_var w).
Proof.
  split; [|split].
  - intros x w.
    exists {| tok_id := List.length (tokens w); tok_old := _trace_id_var w |},
           (install x w),
           (with_trace (install x w) (_trace_id_var w)
              (mark_used (List.length (tokens w)) (tokens w ++ [false]))).
    split; [reflexivity|]. split; [reflexivity|]. split.
    + unfold reset_trace_id, ContextVar_reset, install.
      cbn [tokens with_trace tok_id tok_old].
      rewrite nth_error_fresh. reflexivity.
    + split; [reflexivity|].
      unfold outcome, from_context, bind, ContextVar_get, ret. cbn.
      intros Hne E. apply Hne. congruence.
  - intros s t m args w put_back.
    split; [reflexivity|].
    assert (H1 : perform (CtxPlain s t args) w =
                 (outcome (perform (Plain (ctx_severity s) args)) (install t w),
                  put_back (run (perform (Plain (ctx_severity s) args))
                             (install t w)))).
    { rewrite (perform_spec (CtxPlain s t args)). unfold behaviour, outcome, run.
      cbn [call_trace call_body]. rewrite <- perform_plain. reflexivity. }
    assert (H2 : perform (CtxFormatted s t m args) w =
                 (outcome (perform (Formatted (ctx_severity s) m args))
                    (install t w),
                  put_back (run (perform (Formatted (ctx_severity s) m args))
                             (install t w)))).
    { rewrite (perform_spec (CtxFormatted s t m args)).
      unfold behaviour, outcome, run.
      cbn [call_trace call_body]. rewrite <- perform_formatted. reflexivity. }
    split; [exact H1|]. split; [exact H2|].
    split; apply perform_trace.
  - intros t w. split.
    + apply (perform_outcome (CtxFormatted CtxInfo t (lit "hello") [PyInt 5])).
    + apply (perform_trace (CtxFormatted CtxInfo t (lit "hello") [PyInt 5])).
Qed.







Lemma implicit_init_behaviour (c : Call) (w : World) :
  _logger w = None ->
  behaviour c w = behaviour c (run (init default_config) w).
Proof.
  intros H. unfold behaviour, plain_behaviour, ready, install.
  destruct (call_trace c); cbn [_logger with_trace]; rewrite H; reflexivity.
Qed.

(** C8.  Implicit initialisation.  When no [init] has happened, a logging
    call does exactly what it does after [init(Config(debug=True))]: it
    ends as its message alone decides (the initialisation raises
    nothing), and afterwards the global logger is set, with threshold
    [DEBUG] and the console sink as its only sink.  Looking the logger up
    again changes nothing, and later calls keep that logger. *)
Theorem implicit_default_init (c : Call) (w : World) :
  _logger w = None ->
  let w1 := run (perform c) w in
  perform c w = perform c (run (init default_config) w) /\
  outcome (perform c) w = call_outcome c /\
  _logger w1 = Some TubaLog /\
  tubalog w1 = default_logger /\
  _get_logger w1 = (Ok TubaLog, w1) /\
  (forall c2 : Call,
      _logger (run (perform c2) w1) = Some TubaLog /\
      tubalog (run (perform c2) w1) = default_logger).
Proof.
  intros H w1.
  assert (Hg : _logger w1 = Some TubaLog) by apply perform_logger.
  assert (Ht : tubalog w1 = default_logger).
  { subst w1. destruct (perform_logger c w) as [-> _].
    unfold ready. rewrite H. reflexivity. }
  assert (Hr : ready w1 = w1) by (unfold ready; rewrite Hg; reflexivity).
  split; [rewrite !perform_spec; apply implicit_init_behaviour; exact H|].
  split; [apply perform_outcome|].
  split; [exact Hg|]. split; [exact Ht|].
  split; [rewrite _get_logger_spec, Hr; reflexivity|].
  intros c2. destruct (perform_logger c2 w1) as [-> ->].
  rewrite Hr. auto.
Qed.



(** C10.  No stack trace through the public interface.  On a logger made
    by [init config] (or by the implicit default initialisation), every
    line that any of the eighteen logging functions writes is the JSON
    rendering of a record made without [exc_info]: it has no
    [stacktrace] key. *)
Theorem no_stacktrace (config : Config.t) (w : World) (c : Call) :
  configured_by config (ready w) ->
  exists lines : list (Stream * pystr),
    written (run (perform c) w) = written w ++ lines /\
    forall stream text,
      In (stream, text) lines ->
      exists (s : pystr) (entry : dict),
        entry = log_entry (clock w) (_trace_id_var (scene c w))
                  (makeRecord (severity_level (call_severity c)) s None) /\
        text = json_dumps entry ++ terminator /\
        json_decode (json_dumps entry) = Some entry /\
        dict_get entry (lit "stacktrace") = None /\
        ~ In (lit "stacktrace") (dict_keys entry).
Proof.
  intros Hc. exists (call_writes c w). split; [apply perform_written|].
  intros stream text Hin.
  destruct (call_writes_lines config w c _ _ Hc Hin)
    as (s & h & Hs & _ & _ & _ & _ & ->).
  exists s. eexists. split; [reflexivity|]. split; [reflexivity|].
  split; [apply json_decode_dumps|].
  match goal with
  | |- dict_get (log_entry ?n ?t ?r) _ = _ /\ _ =>
      destruct (log_entry_fields n t r) as (Hk & _ & _ & _ & _ & Hst)
  end.
  rewrite stacktrace_of_makeRecord in Hk, Hst.
  split; [exact Hst|].
  rewrite Hk. destruct (_trace_id_var (scene c w)); cbn; intuition discriminate.
Qed.

(* ================================================================== *)
(** ** The theorems at concrete inputs *)
(* ================================================================== *)

(** Scenario D: five per-level files, and [error("boom")]. *)
Lemma sink_routing_witness :
  configured_by multi_file_config (run (init multi_file_config) fresh_process) /\
  call_message (Plain ERROR [PyStr (lit "boom")]) = Ok (lit "boom") /\
  exists lines : list (Stream * pystr),
    written (run (perform (Plain ERROR [PyStr (lit "boom")]))
               (run (init multi_file_config) fresh_process))
    = written (run (init multi_file_config) fresh_process) ++ lines /\
    forall h : Handler,
      In h (l_handlers (tubalog (run (init multi_file_config) fresh_process))) ->
      (exists text, In (h_stream h, text) lines)
      <-> sink_accepts h logging.ERROR.
Proof.
  assert (H1 : configured_by multi_file_config
                 (run (init multi_file_config) fresh_process))
    by (split; reflexivity).
  assert (H2 : call_message (Plain ERROR [PyStr (lit "boom")]) = Ok (lit "boom"))
    by reflexivity.
  split; [exact H1|]. split; [exact H2|].
  destruct (sink_routing multi_file_config _ _ _ H1 H2) as (lines & Hw & Hiff & _).
  exists lines. split; [exact Hw | exact Hiff].
Defined.

Lemma formatter_line_witness :
  (0 <= clock traced_process)%Z /\
  exists (line : pystr) (entry : dict),
    JSONFormatter_format record_with_exception traced_process
    = (Ok line, traced_process) /\
    json_decode line = Some entry /\
    dict_keys entry =
      [lit "level"; lit "event_time"; lit "msg"; lit "trace_id";
       lit "stacktrace"].
Proof.
  assert (H : (0 <= clock traced_process)%Z) by (vm_compute; discriminate).
  split; [exact H|].
  destruct (formatter_line record_with_exception traced_process H)
    as (line & entry & H1 & _ & H3 & H4 & _).
  exists line, entry. split; [exact H1|]. split; [exact H3 | exact H4].
Defined.



Lemma implicit_default_init_witness :
  _logger fresh_process = None /\
  outcome (perform (Plain INFO [PyStr (lit "hello")])) fresh_process = Ok tt /\
  tubalog (run (perform (Plain INFO [PyStr (lit "hello")])) fresh_process)
  = default_logger.
Proof.
  assert (H : _logger fresh_process = None) by reflexivity.
  split; [exact H|].
  destruct (implicit_default_init (Plain INFO [PyStr (lit "hello")])
              fresh_process H) as (_ & H2 & _ & H4 & _).
  split; [exact H2 | exact H4].
Defined.


Lemma no_stacktrace_witness :
  configured_by default_config (ready traced_process) /\
  exists lines : list (Stream * pystr),
    written (run (perform (CtxFormatted CtxError (lit "abc-123")
                             (lit "failed: %s") [PyStr (lit "boom")]))
               traced_process)
    = written traced_process ++ lines.
Proof.
  assert (H : configured_by default_config (ready traced_process))
    by (split; reflexivity).
  split; [exact H|].
  destruct (no_stacktrace default_config traced_process
              (CtxFormatted CtxError (lit "abc-123") (lit "failed: %s")
                 [PyStr (lit "boom")]) H) as (lines & Hw & _).
  exists lines. exact Hw.
Defined.

(* ================================================================== *)
(** ** Further properties of the code *)
(* ================================================================== *)

Section Reinit.

Ltac by_config config :=
destruct config as [[|c p] name [|] [|]];
cbn -[os_path_join List.app lit].


Lemma init_spec (config : Config.t) (w : World) :
init config w =
(Ok tt, with_logger (with_tubalog w (tubalog (run (init config) w)))
          (Some TubaLog)).
Proof. by_config config; reflexivity. Qed.


End Reinit.

Section Routing.

Ltac by_config config :=
destruct config as [[|c p] name [|] [|]];
cbn -[os_path_join List.app lit].

Lemma line_of_scene (c : Call) (w : World) (text : pystr) :
json_dumps
  (log_entry (clock (scene c w)) (_trace_id_var (scene c w))
     (makeRecord (severity_level (call_severity c)) text None))
++ terminator
= line_of c w text.
Proof. unfold line_of. rewrite scene_clock, scene_trace. reflexivity. Qed.

(** The writes of a call on a logger made by [init config]: nothing
  below the threshold, and otherwise the line of the call, once for
  each sink that accepts the record, in the order of the sinks. *)
Lemma call_writes_configured (config : Config.t) (w : World) (c : Call)
(text : pystr) :
configured_by config w ->
call_message c = Ok text ->
call_writes c w =
if (threshold config <=? severity_level (call_severity c))%Z
then map (fun h => (h_stream h, line_of c w text))
       (filter
          (fun h =>
             accepts h (makeRecord (severity_level (call_severity c)) text None))
          (l_handlers (tubalog (run (init config) w))))
else [].
Proof.
intros Hc Hm. pose proof (configured_ready config w Hc) as Hr.
destruct Hc as [_ Hl].
unfold call_writes. rewrite Hm. unfold emitted, isEnabledFor.
rewrite scene_logger, Hr, Hl, configured_level.
destruct (threshold config <=? _)%Z; [|reflexivity].
unfold deliveries. apply map_ext_in. intros h Hh.
apply filter_In in Hh. destruct Hh as [Hh _].
apply configured_handler in Hh. destruct Hh as (Hf & _).
unfold rendered. rewrite Hf, line_of_scene. reflexivity.
Qed.

(** X2.  The sinks [init] makes.  The logger gets the threshold of the
  configuration, does not propagate, and has the console sink first,
  at the threshold, followed by the file sinks: none when the log path
  is empty (whatever [multi_file] and [app_name] say), one file
  [app_name.log] at the threshold in single-file mode, and in
  multi-file mode four files (five with [debug]), each named after a
  severity and at the level of that severity.  No two sinks share a
  stream. *)
Theorem sinks_of_config (config : Config.t) (w : World) :
let l := tubalog (run (init config) w) in
l_level l = threshold config /\
l_propagate l = false /\
NoDup (map h_stream (l_handlers l)) /\
exists console files,
  l_handlers l = console :: files /\
  h_stream console = Stdout /\
  h_level console = threshold config /\
  List.length files = file_sinks config /\
  forall h, In h files ->
    if Config.multi_file config
    then exists s : Severity,
           h_stream h = log_file config (level_suffix s) /\
           h_level h = severity_level s
    else h_stream h = log_file config (lit ".log") /\
         h_level h = threshold config.
Proof.
intros l. subst l.
split; [apply configured_level|].
split; [by_config config; reflexivity|].
split; [apply configured_streams|].
unfold threshold, file_sinks, log_file.
by_config config; eexists; eexists;
  (split; [reflexivity|]); repeat (split; [reflexivity|]);
  intros h H; cbn -[os_path_join List.app lit] in H;
  repeat (destruct H as [H|H];
          [subst h; cbn -[os_path_join List.app lit];
           first [ split; reflexivity
                 | exists INFO; split; reflexivity
                 | exists WARN; split; reflexivity
                 | exists ERROR; split; reflexivity
                 | exists FATAL; split; reflexivity
                 | exists DEBUG; split; reflexivity ]
          |]);
  contradiction.
Qed.

Ltac route config c Hle :=
unfold threshold in *; unfold log_file;
destruct config as [[|ch p] name [|] [|]];
cbn [Config.multi_file Config.debug Config.log_path Config.app_name] in *;
try discriminate;
destruct (call_severity c);
cbn -[os_path_join List.app lit line_of] in *;
try reflexivity;
exfalso; unfold logging.DEBUG, logging.INFO in Hle; lia.

(** X3.  Routing in multi-file mode.  On a logger made by [init] with
  [multi_file] set, a call at or above the threshold writes its line
  on the console and, when a log path is set, once more in the file of
  its own severity, and nowhere else. *)
Theorem multi_file_routing (config : Config.t) (w : World) (c : Call)
(text : pystr) :
configured_by config w ->
Config.multi_file config = true ->
call_message c = Ok text ->
(threshold config <= severity_level (call_severity c))%Z ->
written (run (perform c) w) =
written w
  ++ (Stdout, line_of c w text)
  :: (if truthy (Config.log_path config)
      then [(log_file config (level_suffix (call_severity c)),
             line_of c w text)]
      else []).
Proof.
intros Hc Hmf Hm Hle.
rewrite perform_written, (call_writes_configured config w c text Hc Hm).
f_equal. pose proof Hle as Hb. apply Z.leb_le in Hb. rewrite Hb. clear Hb Hc.
generalize (line_of c w text). intros ln.
route config c Hle.
Qed.


End Routing.

Section MoreRouting.

(** X5.  The [debug] flag matters for [DEBUG] records only.  For a call
  of any other severity, two configurations that differ in [debug]
  alone lead to the same writes: the same lines on the same streams. *)
Theorem debug_flag_spares_other_levels (path name : pystr) (multi : bool)
(w : World) (c : Call) :
call_severity c <> DEBUG ->
written (run (perform c) (run (init (Config.mk path name true multi)) w)) =
written (run (perform c) (run (init (Config.mk path name false multi)) w)).
Proof.
intros Hs. rewrite !perform_written.
assert (Hw : forall config,
           written (run (init config) w) = written w /\
           forall text, line_of c (run (init config) w) text = line_of c w text).
{ intros config. unfold run, line_of. rewrite init_spec. split; reflexivity. }
destruct (Hw (Config.mk path name true multi)) as [-> Hl1].
destruct (Hw (Config.mk path name false multi)) as [-> Hl2].
f_equal.
destruct (call_message c) as [text|e] eqn:Hm;
  [|unfold call_writes; rewrite Hm; reflexivity].
rewrite (call_writes_configured _ _ c text (init_configures _ w) Hm).
rewrite (call_writes_configured _ _ c text (init_configures _ w) Hm).
rewrite Hl1, Hl2. generalize (line_of c w text). intros ln.
unfold threshold. cbn [Config.debug].
destruct path as [|ch p], multi; destruct (call_severity c);
  try congruence; reflexivity.
Qed.

(** The lines of a call, for a logger made by [init]: each is the line of
  the call for the message the call computed. *)
Lemma written_lines (config : Config.t) (w : World) (c : Call) :
configured_by config (ready w) ->
exists lines : list (Stream * pystr),
  written (run (perform c) w) = written w ++ lines /\
  forall stream text,
    In (stream, text) lines ->
    exists s, call_message c = Ok s /\ text = line_of c w s.
Proof.
intros Hc. exists (call_writes c w). split; [apply perform_written|].
intros stream text Hin.
destruct (call_writes_lines config w c _ _ Hc Hin)
  as (s & h & Hs & _ & _ & _ & _ & ->).
exists s. split; [exact Hs|].
unfold line_of. rewrite scene_trace. reflexivity.
Qed.

(** X6.  The trace id on the wire.  Every line a [ctx_] call writes has
  the trace id given to the call as [trace_id], whatever the ambient
  value was; every line of another call has the ambient value, and no
  [trace_id] key at all when none is set. *)
Theorem lines_carry_trace_id (config : Config.t) (w : World) (c : Call) :
configured_by config (ready w) ->
let expected :=
  match call_trace c with
  | Some t => Some t
  | None => _trace_id_var w
  end in
exists lines : list (Stream * pystr),
  written (run (perform c) w) = written w ++ lines /\
  forall stream text,
    In (stream, text) lines ->
    exists entry,
      text = json_dumps entry ++ terminator /\
      json_decode (json_dumps entry) = Some entry /\
      dict_get entry (lit "trace_id") = expected /\
      (In (lit "trace_id") (dict_keys entry) <-> expected <> None).
Proof.
intros Hc expected.
destruct (written_lines config w c Hc) as (lines & Hw & Hl).
exists lines. split; [exact Hw|].
intros stream text Hin. destruct (Hl stream text Hin) as (s & _ & ->).
unfold line_of. fold expected.
eexists. split; [reflexivity|]. split; [apply json_decode_dumps|].
match goal with
| |- dict_get (log_entry ?n ?t ?r) _ = _ /\ _ =>
    destruct (log_entry_fields n t r) as (Hk & _ & _ & _ & Ht & _)
end.
split; [exact Ht|].
rewrite Hk, stacktrace_of_makeRecord.
destruct expected; cbn; split; intros H; try congruence;
  intuition discriminate.
Qed.

(** X7.  One write, one line.  Whatever the message holds (line breaks,
  quotes, control characters), every text a call writes is one line:
  it ends with the line feed and has no line feed and no carriage
  return before it. *)
Theorem one_line_per_write (config : Config.t) (w : World) (c : Call) :
configured_by config (ready w) ->
exists lines : list (Stream * pystr),
  written (run (perform c) w) = written w ++ lines /\
  forall stream text,
    In (stream, text) lines ->
    exists line,
      text = line ++ [10%N] /\ ~ In 10%N line /\ ~ In 13%N line.
Proof.
intros Hc.
destruct (written_lines config w c Hc) as (lines & Hw & Hl).
exists lines. split; [exact Hw|].
intros stream text Hin. destruct (Hl stream text Hin) as (s & _ & ->).
unfold line_of. eexists. split; [reflexivity|].
match goal with
| |- ~ In _ (json_dumps ?d) /\ _ =>
    pose proof (json_dumps_printable d) as Hp
end.
rewrite Forall_forall in Hp.
split; intros Hin'; apply Hp in Hin'; lia.
Qed.


Lemma percent_format_no_directive (m : pystr) (a : pyval) (args : list pyval) :
~ In 37%N m -> percent_format m (a :: args) = Raise TypeError.
Proof.
induction m as [|ch m IH]; intros H; [reflexivity|].
cbn [percent_format].
destruct (ch =? 37)%N eqn:E.
- apply N.eqb_eq in E. subst. exfalso. apply H. left. reflexivity.
- rewrite IH; [reflexivity|]. intros Hin. apply H. right. exact Hin.
Qed.

(** X9.  A template without any [%] cannot take arguments.  Each of the
  formatted variants, with or without [ctx_] prefix, given such a
  template and at least one extra argument raises [TypeError], writes
  nothing and leaves the ambient trace id as it was. *)
Theorem template_without_directive (s : Severity) (cs : CtxSeverity)
(t m : pystr) (a : pyval) (args : list pyval) (w : World) :
~ In 37%N m ->
(outcome (perform (Formatted s m (a :: args))) w = Raise TypeError /\
 written (run (perform (Formatted s m (a :: args))) w) = written w /\
 _trace_id_var (run (perform (Formatted s m (a :: args))) w)
   = _trace_id_var w) /\
(outcome (perform (CtxFormatted cs t m (a :: args))) w = Raise TypeError /\
 written (run (perform (CtxFormatted cs t m (a :: args))) w) = written w /\
 _trace_id_var (run (perform (CtxFormatted cs t m (a :: args))) w)
   = _trace_id_var w).
Proof.
intros H. pose proof (percent_format_no_directive m a args H) as E.
split; (split; [|split]);
  rewrite ?perform_outcome, ?perform_written, ?perform_trace;
  unfold call_outcome, call_writes; cbn [call_message];
  rewrite ?E; auto using app_nil_r.
Qed.

End MoreRouting.

Section ScopesAndTests.

Lemma nth_error_mark_used_other (l : list bool) :
forall n m, n <> m -> nth_error (mark_used m l) n = nth_error l n.
Proof.
induction l as [|b l IH]; intros n m H; [destruct m; reflexivity|].
destruct m as [|m], n as [|n]; cbn; try congruence; auto.
Qed.

Lemma nth_error_mark_used_same (l : list bool) :
forall n, (n < List.length l)%nat -> nth_error (mark_used n l) n = Some true.
Proof.
induction l as [|b l IH]; intros n H; [simpl in H; lia|].
destruct n as [|n]; cbn; [reflexivity|]. apply IH. simpl in H. lia.
Qed.

Lemma mark_used_length (l : list bool) :
forall n, List.length (mark_used n l) = List.length l.
Proof.
induction l as [|b l IH]; intros [|n]; cbn; auto.
Qed.

Lemma nth_error_older (l : list bool) :
nth_error ((l ++ [false]) ++ [false]) (List.length l) = Some false.
Proof.
rewrite nth_error_app1 by (rewrite length_app; simpl; lia).
apply nth_error_fresh.
Qed.

Lemma length_snoc (l : list bool) :
List.length (l ++ [false]) = S (List.length l).
Proof. rewrite length_app. simpl. lia. Qed.

Lemma bind_ok {A B : Type} (m : M A) (k : A -> M B) (w w1 : World) (a : A) :
m w = (Ok a, w1) -> bind m k w = k a w1.
Proof. intros H. unfold bind. rewrite H. reflexivity. Qed.

Lemma bind_raise {A B : Type} (m : M A) (k : A -> M B) (w w1 : World)
(e : exn) :
m w = (Raise e, w1) -> bind m k w = (Raise e, w1).
Proof. intros H. unfold bind. rewrite H. reflexivity. Qed.

Lemma with_trace_id_spec (x : pystr) (w : World) :
with_trace_id x w =
(Ok {| tok_id := List.length (tokens w); tok_old := _trace_id_var w |},
 install x w).
Proof. reflexivity. Qed.

Lemma from_context_spec (w : World) :
from_context w = (Ok (present (_trace_id_var w)), w).
Proof. reflexivity. Qed.

Lemma reset_fresh (token : Token) (w : World) :
nth_error (tokens w) (tok_id token) = Some false ->
reset_trace_id token w =
(Ok tt,
 with_trace w (tok_old token) (mark_used (tok_id token) (tokens w))).
Proof.
intros H. unfold reset_trace_id, ContextVar_reset. rewrite H. reflexivity.
Qed.

Lemma reset_used (token : Token) (w : World) :
nth_error (tokens w) (tok_id token) = Some true ->
reset_trace_id token w = (Raise RuntimeError, w).
Proof.
intros H. unfold reset_trace_id, ContextVar_reset. rewrite H. reflexivity.
Qed.

Ltac unused :=
cbn [tokens with_trace tok_id install];
rewrite ?nth_error_mark_used_other by (rewrite ?length_snoc; lia);
first [apply nth_error_fresh | apply nth_error_older].

Ltac step :=
erewrite bind_ok;
[| first [ apply with_trace_id_spec
         | apply from_context_spec
         | apply reset_fresh; unused ] ];
cbv beta.

(** X10.  Nested scopes unwind in order.  With two trace ids installed
  one inside the other, [from_context()] reports the inner one;
  resetting the inner token brings the outer one back, and resetting
  the outer token brings back what was there at the start, absent
  included. *)
Theorem nested_scopes_unwind (a b : pystr) (w : World) :
outcome
  (t1 <- with_trace_id a ;;
   t2 <- with_trace_id b ;;
   inner <- from_context ;;
   reset_trace_id t2 ;;
   outer <- from_context ;;
   reset_trace_id t1 ;;
   initial <- from_context ;;
   ret (inner, outer, initial)) w
= Ok (present (Some b), present (Some a), present (_trace_id_var w)).
Proof. unfold outcome. do 7 step. reflexivity. Qed.

(** X11.  A token works once.  Resetting with the same token a second
  time raises [RuntimeError]; the value restored by the first reset
  stays. *)
Theorem token_is_single_use (x : pystr) (w : World) :
outcome
  (token <- with_trace_id x ;;
   reset_trace_id token ;;
   reset_trace_id token) w
= Raise RuntimeError /\
_trace_id_var
  (run (token <- with_trace_id x ;;
        reset_trace_id token ;;
        reset_trace_id token) w)
= _trace_id_var w.
Proof.
unfold outcome, run. do 2 step.
rewrite reset_used; [split; reflexivity|].
cbn [tokens with_trace tok_id install].
apply nth_error_mark_used_same. rewrite length_snoc. lia.
Qed.

(** X12.  Tokens reset out of order.  When the outer token is reset
  before the inner one, both resets succeed: the first brings back the
  value from before both scopes, and the second then installs the
  outer trace id again, which stays as the ambient value although both
  scopes are closed. *)
Theorem out_of_order_reset (a b : pystr) (w : World) :
outcome
  (t1 <- with_trace_id a ;;
   t2 <- with_trace_id b ;;
   reset_trace_id t1 ;;
   first <- from_context ;;
   reset_trace_id t2 ;;
   last <- from_context ;;
   ret (first, last)) w
= Ok (present (_trace_id_var w), present (Some a)).
Proof. unfold outcome. do 6 step. reflexivity. Qed.

Lemma perform_tokens (c : Call) (w : World) :
tokens (run (perform c) w) = tokens_after c w.
Proof.
unfold run, tokens_after. rewrite perform_spec. unfold behaviour.
destruct (call_trace c); [reflexivity | apply plain_behaviour_tokens].
Qed.

Lemma token_survives (x : pystr) (c : Call) (w : World) :
nth_error (tokens (run (perform c) (install x w))) (List.length (tokens w))
= Some false.
Proof.
rewrite perform_tokens. unfold tokens_after, install.
cbn [tokens with_trace].
destruct (call_trace c).
- rewrite nth_error_mark_used_other by (rewrite length_snoc; lia).
  apply nth_error_older.
- apply nth_error_fresh.
Qed.

(** X13.  A logging call inside a scope.  Between [with_trace_id(x)] and
  the reset of its token, any logging call, [ctx_] calls with their
  own trace id included, returning or raising, leaves [x] as the
  ambient value and the token usable: the reset afterwards succeeds
  and brings back the value from before the scope. *)
Theorem scope_survives_call (x : pystr) (c : Call) (w : World) :
exists token w1,
  with_trace_id x w = (Ok token, w1) /\
  _trace_id_var (run (perform c) w1) = Some x /\
  outcome (reset_trace_id token) (run (perform c) w1) = Ok tt /\
  _trace_id_var (run (reset_trace_id token) (run (perform c) w1))
  = _trace_id_var w.
Proof.
exists {| tok_id := List.length (tokens w); tok_old := _trace_id_var w |},
       (install x w).
split; [reflexivity|]. split; [rewrite perform_trace; reflexivity|].
pose proof (token_survives x c w) as Hn.
pose proof (reset_fresh
              {| tok_id := List.length (tokens w);
                 tok_old := _trace_id_var w |} _ Hn) as E.
split.
- unfold outcome. rewrite E. reflexivity.
- unfold run at 1. rewrite E. reflexivity.
Qed.





(** X15.  The level on the wire.  Every line a call writes has as
  [level] the name the [logging] library gives the level of the call,
  in lower case: [debug], [info], [warning], [error], [critical]. *)
Theorem level_names_on_the_wire (config : Config.t) (w : World) (c : Call) :
configured_by config (ready w) ->
exists lines : list (Stream * pystr),
  written (run (perform c) w) = written w ++ lines /\
  forall stream text,
    In (stream, text) lines ->
    exists entry,
      text = json_dumps entry ++ terminator /\
      json_decode (json_dumps entry) = Some entry /\
      dict_get entry (lit "level") =
      Some match call_severity c with
           | DEBUG => lit "debug"
           | INFO => lit "info"
           | WARN => lit "warning"
           | ERROR => lit "error"
           | FATAL => lit "critical"
           end.
Proof.
intros Hc.
destruct (written_lines config w c Hc) as (lines & Hw & Hl).
exists lines. split; [exact Hw|].
intros stream text Hin. destruct (Hl stream text Hin) as (s & _ & ->).
unfold line_of. eexists. split; [reflexivity|].
split; [apply json_decode_dumps|].
match goal with
| |- dict_get (log_entry ?n ?t ?r) _ = _ =>
    destruct (log_entry_fields n t r) as (_ & -> & _)
end.
destruct (call_severity c); reflexivity.
Qed.








End ScopesAndTests.

(* ================================================================== *)
(** ** The further properties at concrete inputs *)
(* ================================================================== *)

(** Scenario D again: [error("boom")] goes to the console and to
    [app_error.log]. *)
Lemma multi_file_routing_witness :
  configured_by multi_file_config multi_file_process /\
  Config.multi_file multi_file_config = true /\
  call_message (Plain ERROR [PyStr (lit "boom")]) = Ok (lit "boom") /\
  (threshold multi_file_config
   <= severity_level (call_severity (Plain ERROR [PyStr (lit "boom")])))%Z /\
  written (run (perform (Plain ERROR [PyStr (lit "boom")])) multi_file_process)
  = written multi_file_process
      ++ [(Stdout,
           line_of (Plain ERROR [PyStr (lit "boom")]) multi_file_process
             (lit "boom"));
          (FileStream (lit "/var/log/app_error.log"),
           line_of (Plain ERROR [PyStr (lit "boom")]) multi_file_process
             (lit "boom"))].
Proof.
  assert (H1 : configured_by multi_file_config multi_file_process)
    by (split; reflexivity).
  assert (H2 : Config.multi_file multi_file_config = true) by reflexivity.
  assert (H3 : call_message (Plain ERROR [PyStr (lit "boom")]) = Ok (lit "boom"))
    by reflexivity.
  assert (H4 : (threshold multi_file_config
                <= severity_level
                     (call_severity (Plain ERROR [PyStr (lit "boom")])))%Z)
    by (vm_compute; discriminate).
  repeat (split; [assumption|]).
  exact (multi_file_routing multi_file_config multi_file_process _ _ H1 H2 H3 H4).
Defined.


Lemma debug_flag_spares_other_levels_witness :
  call_severity (Plain WARN [PyStr (lit "slow")]) <> DEBUG /\
  written (run (perform (Plain WARN [PyStr (lit "slow")]))
             (run (init (Config.mk (lit "/var/log") (lit "app") true true))
                fresh_process)) =
  written (run (perform (Plain WARN [PyStr (lit "slow")]))
             (run (init (Config.mk (lit "/var/log") (lit "app") false true))
                fresh_process)).
Proof.
  assert (H : call_severity (Plain WARN [PyStr (lit "slow")]) <> DEBUG)
    by (simpl; discriminate).
  split; [exact H|].
  exact (debug_flag_spares_other_levels (lit "/var/log") (lit "app") true
           fresh_process _ H).
Defined.

Lemma lines_carry_trace_id_witness :
  configured_by default_config (ready traced_process) /\
  exists lines : list (Stream * pystr),
    written (run (perform (CtxPlain CtxInfo (lit "req-7") [PyStr (lit "hi")]))
               traced_process)
    = written traced_process ++ lines /\
    forall stream text,
      In (stream, text) lines ->
      exists entry,
        text = json_dumps entry ++ terminator /\
        json_decode (json_dumps entry) = Some entry /\
        dict_get entry (lit "trace_id") = Some (lit "req-7") /\
        (In (lit "trace_id") (dict_keys entry) <-> Some (lit "req-7") <> None).
Proof.
  assert (H : configured_by default_config (ready traced_process))
    by (split; reflexivity).
  split; [exact H|].
  exact (lines_carry_trace_id default_config traced_process
           (CtxPlain CtxInfo (lit "req-7") [PyStr (lit "hi")]) H).
Defined.

(** A message of two lines stays on one line. *)
Lemma one_line_per_write_witness :
  configured_by test_config (ready test_process) /\
  exists lines : list (Stream * pystr),
    written (run (perform (Plain INFO [PyStr [97; 10; 98]%N])) test_process)
    = written test_process ++ lines /\
    forall stream text,
      In (stream, text) lines ->
      exists line,
        text = line ++ [10%N] /\ ~ In 10%N line /\ ~ In 13%N line.
Proof.
  assert (H : configured_by test_config (ready test_process))
    by (split; reflexivity).
  split; [exact H|].
  exact (one_line_per_write test_config test_process
           (Plain INFO [PyStr [97; 10; 98]%N]) H).
Defined.


Lemma template_without_directive_witness :
  ~ In 37%N (lit "hello") /\
  outcome (perform (Formatted ERROR (lit "hello") [PyInt 5])) test_process
  = Raise TypeError /\
  written (run (perform (Formatted ERROR (lit "hello") [PyInt 5])) test_process)
  = written test_process.
Proof.
  assert (H : ~ In 37%N (lit "hello"))
    by (simpl; intros [E|[E|[E|[E|[E|[]]]]]]; discriminate E).
  split; [exact H|].
  destruct (template_without_directive ERROR CtxError (lit "t") (lit "hello")
              (PyInt 5) [] test_process H) as ((H1 & H2 & _) & _).
  split; [exact H1 | exact H2].
Defined.


Lemma level_names_on_the_wire_witness :
  configured_by test_config (ready test_process) /\
  exists lines : list (Stream * pystr),
    written (run (perform (Plain WARN [PyStr (lit "hello")])) test_process)
    = written test_process ++ lines /\
    forall stream text,
      In (stream, text) lines ->
      exists entry,
        text = json_dumps entry ++ terminator /\
        json_decode (json_dumps entry) = Some entry /\
        dict_get entry (lit "level") = Some (lit "warning").
Proof.
  assert (H : configured_by test_config (ready test_process))
    by (split; reflexivity).
  split; [exact H|].
  exact (level_names_on_the_wire test_config test_process
           (Plain WARN [PyStr (lit "hello")]) H).
Defined.
